(** * go-global: the Global Payments card-storage client

    A shallow embedding of package [globalpayments]: the chained SHA-1
    signature of [serviceAuthenticator], the eight request builders of
    [CardStorageService], the transmission pipeline with its response
    validation, and the client constructor.

    Go strings are byte sequences and are modelled as [string] (a list of
    8-bit [ascii]); [[]byte] is [list byte]; [uint32] and [uint64] are [Z]
    with the wrap-around written out; a pointer that the code tests or
    dereferences ([*Amount], [*Payer], [*Card], [*url.URL]) is an [option];
    a call that mutates its receiver returns the new receiver. The request
    pointer a builder receives, the client pointer of a service and the
    HTTP client of a client are taken to be non-nil. *)

From Stdlib Require Import ZArith List String Ascii Bool Lia DecimalString.
From Stdlib Require Import Strings.Byte.
Import ListNotations.

Local Open Scope string_scope.
Local Open Scope list_scope.
Local Open Scope Z_scope.

(** ** Results of Go calls *)

(** A Go call either returns or panics (a nil dereference). *)
Inductive outcome (A : Type) : Type :=
| Returned (a : A)
| Panicked.
Arguments Returned {A} a.
Arguments Panicked {A}.

(** ** Package [strings] *)

Module strings.

(** [strings.Join]: the elements in order with [sep] between neighbours;
    no element gives the empty string, one element gives itself. *)
Fixpoint Join (elems : list string) (sep : string) : string :=
  match elems with
  | [] => ""
  | [e] => e
  | e :: rest => (e ++ sep ++ Join rest sep)%string
  end.

(** [strings.HasSuffix]:
    [len(s) >= len(suffix) && s[len(s)-len(suffix):] == suffix]. *)
Definition HasSuffix (s suffix : string) : bool :=
  (String.length suffix <=? String.length s)%nat
  && String.eqb
       (substring (String.length s - String.length suffix)
                  (String.length suffix) s)
       suffix.

End strings.

(** ** Bytes *)

Definition byte_of_Z (z : Z) : byte :=
  byte_of_ascii (ascii_of_N (Z.to_N (z mod 256))).

Definition Z_of_byte (b : byte) : Z := Z.of_N (Byte.to_N b).

(** [[]byte(str)] *)
Definition bytes_of_string (s : string) : list byte := list_byte_of_string s.

(** ** Package [encoding/hex] *)

Module hex.

Definition hextable : string := "0123456789abcdef".

(** [hextable[i]] *)
Definition hexdigit (i : Z) : ascii :=
  match String.get (Z.to_nat i) hextable with
  | Some c => c
  | None => "0"%char
  end.

(** [hex.EncodeToString]: for every byte [v], [hextable[v>>4]] then
    [hextable[v&0x0f]]. *)
Fixpoint EncodeToString (src : list byte) : string :=
  match src with
  | [] => ""
  | v :: rest =>
      String (hexdigit (Z.shiftr (Z_of_byte v) 4))
        (String (hexdigit (Z.land (Z_of_byte v) 15)) (EncodeToString rest))
  end.

(** The characters of a lowercase hexadecimal string. *)
Definition is_lower_hex (c : ascii) : bool :=
  let n := Z.of_N (N_of_ascii c) in
  ((48 <=? n) && (n <=? 57)) || ((97 <=? n) && (n <=? 102)).

Fixpoint all_chars (p : ascii -> bool) (s : string) : bool :=
  match s with
  | EmptyString => true
  | String c rest => p c && all_chars p rest
  end.

End hex.

(** ** Package [crypto/sha1] *)

Module sha1.

Definition uint32 (z : Z) : Z := z mod 2 ^ 32.
Definition uint64 (z : Z) : Z := z mod 2 ^ 64.

(** [bits.RotateLeft32] *)
Definition RotateLeft32 (x k : Z) : Z :=
  uint32 (Z.lor (Z.shiftl x k) (Z.shiftr x (32 - k))).

(** [^b] on a [uint32] *)
Definition not32 (b : Z) : Z := Z.lxor b 0xFFFFFFFF.

Definition chunk : nat := 64.
Definition init0 : Z := 0x67452301.
Definition init1 : Z := 0xEFCDAB89.
Definition init2 : Z := 0x98BADCFE.
Definition init3 : Z := 0x10325476.
Definition init4 : Z := 0xC3D2E1F0.
Definition _K0 : Z := 0x5A827999.
Definition _K1 : Z := 0x6ED9EBA1.
Definition _K2 : Z := 0x8F1BBCDC.
Definition _K3 : Z := 0xCA62C1D6.

(** The five chaining words [h[0..4]]. *)
Record hstate : Type := mkH { h0 : Z; h1 : Z; h2 : Z; h3 : Z; h4 : Z }.

(** [digest]: the chaining words, the bytes of the unfinished chunk
    ([x[:nx]]) and the number of bytes written so far. *)
Record digest : Type := mkDigest { h : hstate; x : list byte; len : Z }.

(** [sha1.New()] after [Reset]. *)
Definition New : digest :=
  mkDigest (mkH init0 init1 init2 init3 init4) [] 0.

(** The sixteen big-endian words of a chunk:
    [w[i] = p[4i]<<24 | p[4i+1]<<16 | p[4i+2]<<8 | p[4i+3]]. *)
Fixpoint words (p : list byte) : list Z :=
  match p with
  | b0 :: b1 :: b2 :: b3 :: rest =>
      Z.lor (Z.lor (Z.lor (Z.shiftl (Z_of_byte b0) 24)
                          (Z.shiftl (Z_of_byte b1) 16))
                   (Z.shiftl (Z_of_byte b2) 8))
            (Z_of_byte b3)
      :: words rest
  | _ => []
  end.

(** The message schedule. [blockGeneric] keeps the last sixteen words in
    a ring: [w[i&0xf] = rotl1 (w[(i-3)&0xf] ^ w[(i-8)&0xf] ^ w[(i-14)&0xf]
    ^ w[i&0xf])]. Here [win] is that ring, oldest word first. *)
Fixpoint expand (n : nat) (win : list Z) : list Z :=
  match n with
  | O => []
  | S n' =>
      let tmp := Z.lxor (Z.lxor (Z.lxor (nth 13 win 0) (nth 8 win 0))
                                (nth 2 win 0))
                        (nth 0 win 0) in
      let wi := RotateLeft32 tmp 1 in
      wi :: expand n' (tl win ++ [wi])
  end.

Definition schedule (w : list Z) : list Z := w ++ expand 64 w.

(** One of the eighty rounds; [i] selects the function and constant as the
    four loops of [blockGeneric] do. *)
Definition round (s : hstate) (iw : nat * Z) : hstate :=
  let '(i, wi) := iw in
  let '(mkH a b c d e) := s in
  let '(f, k) :=
    if (i <? 20)%nat then (Z.lor (Z.land b c) (Z.land (not32 b) d), _K0)
    else if (i <? 40)%nat then (Z.lxor (Z.lxor b c) d, _K1)
    else if (i <? 60)%nat
         then (Z.lor (Z.land (Z.lor b c) d) (Z.land b c), _K2)
    else (Z.lxor (Z.lxor b c) d, _K3) in
  let t := uint32 (RotateLeft32 a 5 + f + e + wi + k) in
  mkH t a (RotateLeft32 b 30) c d.

(** [blockGeneric] on one 64-byte chunk. *)
Definition block (s : hstate) (p : list byte) : hstate :=
  let w := schedule (words p) in
  let '(mkH a b c d e) := fold_left round (combine (seq 0 80) w) s in
  mkH (uint32 (h0 s + a)) (uint32 (h1 s + b)) (uint32 (h2 s + c))
      (uint32 (h3 s + d)) (uint32 (h4 s + e)).

(** One byte of [Write]: it joins the unfinished chunk, and a chunk that
    becomes full is compressed at once. *)
Definition writeByte (d : digest) (b : byte) : digest :=
  let x' := x d ++ [b] in
  if (List.length x' =? chunk)%nat
  then mkDigest (block (h d) x') [] (uint64 (len d + 1))
  else mkDigest (h d) x' (uint64 (len d + 1)).

(** [digest.Write]: it never fails, and returns [len(p)]. *)
Definition Write (d : digest) (p : list byte) : digest :=
  fold_left writeByte p d.

(** [binary.BigEndian.PutUint32] and [PutUint64] *)
Definition be32 (v : Z) : list byte :=
  [byte_of_Z (Z.shiftr v 24); byte_of_Z (Z.shiftr v 16);
   byte_of_Z (Z.shiftr v 8); byte_of_Z v].

Definition be64 (v : Z) : list byte :=
  be32 (Z.shiftr v 32) ++ be32 v.

(** [checkSum]: pad with 0x80 and zeros up to 56 modulo 64, append the
    length in bits, and lay out the five words big-endian. *)
Definition checkSum (d : digest) : list byte :=
  let l := len d in
  let t := if l mod 64 <? 56 then 56 - l mod 64 else 64 + 56 - l mod 64 in
  let padlen :=
    byte_of_Z 0x80 :: repeat (byte_of_Z 0) (Z.to_nat (t - 1))
    ++ be64 (uint64 (Z.shiftl l 3)) in
  let d' := Write d padlen in
  be32 (h0 (h d')) ++ be32 (h1 (h d')) ++ be32 (h2 (h d'))
  ++ be32 (h3 (h d')) ++ be32 (h4 (h d')).

(** [digest.Sum]: works on a copy of the digest. *)
Definition Sum (d : digest) (b : list byte) : list byte := b ++ checkSum d.

(** SHA-1 of a message: a fresh digest, one [Write], then [checkSum]. *)
Definition SHA1 (data : list byte) : list byte := checkSum (Write New data).

End sha1.

(** ** Packages [net/url] and [net/http] *)

Module url.

(** The parts of [url.URL] the client touches. *)
Record URL : Type := mkURL { Scheme : string; Host : string; Path : string }.

End url.

Module http.

(** [http.Request] as [Client.NewRequest] leaves it: method, resolved URL,
    body written by the XML encoder (if any) and the Content-Type header. *)
Module Request.
Record t : Type := mk {
  Method : string;
  URL : url.URL;
  Body : option string;
  ContentType : string }.
End Request.

(** [http.Response]: status, the request that was sent to obtain it, and
    the body that [Client.Do] decodes. *)
Module Response.
Record t : Type := mk {
  StatusCode : Z;
  Request : Request.t;
  Body : string }.
End Response.

End http.

(** ** Errors *)

(** The [error] values of the package: its own [ValidationError], the
    trailing-slash error of [NewClient], and the errors handed up from the
    libraries (URL parsing, XML coding, the HTTP transport, a failing
    writer). *)
Inductive error : Type :=
| ValidationError (Response : http.Response.t)
| TrailingSlashError (BaseURL : url.URL)
| LibraryError (msg : string).

Inductive result (A : Type) : Type :=
| Ok (a : A)
| Err (e : error).
Arguments Ok {A} a.
Arguments Err {A} e.

(** [%d] of an [int] *)
Definition itoa (z : Z) : string := NilZero.string_of_int (Z.to_int z).

(** [ValidationError.Error]:
    [Sprintf("Validation Hash Error: method: %v, path: %v, status code:%d",
    Response.Request.Method, Response.Request.URL.Path,
    Response.StatusCode)]. *)
Definition ValidationError_Error (Response : http.Response.t) : string :=
  ("Validation Hash Error: method: "
   ++ http.Request.Method (http.Response.Request Response)
   ++ ", path: "
   ++ url.Path (http.Request.URL (http.Response.Request Response))
   ++ ", status code:" ++ itoa (http.Response.StatusCode Response))%string.

(** ** The authenticator *)

(** [Marshaller]: an [io.Writer] with [Sum]. [Write] returns the writer
    after the call, the byte count and the error (if any). *)
Class Marshaller (M : Type) : Type := {
  Write : M -> list byte -> M * (Z * option error);
  Sum : M -> list byte -> list byte }.

#[export] Instance sha1_Marshaller : Marshaller sha1.digest := {
  Write d p := (sha1.Write d p, (Z.of_nat (List.length p), None));
  Sum := sha1.Sum }.

(** [io.WriteString] on a writer without [WriteString]:
    [w.Write([]byte(s))]. *)
Definition WriteString {M} `{Marshaller M} (m : M) (s : string)
  : M * (Z * option error) :=
  Write m (bytes_of_string s).

Record serviceAuthenticator : Type := mkAuthenticator {
  elementsToHash : list string;
  sharedSecret : string }.

Definition hashAndEncode {M} `{Marshaller M} (m : M) (str : string)
  : result string :=
  let '(m, (_, err)) := WriteString m str in
  match err with
  | Some err => Err err
  | None => Ok (hex.EncodeToString (Sum m []))
  end.

Definition buildSignature (authenticator : serviceAuthenticator)
  : result string :=
  match hashAndEncode sha1.New
          (strings.Join (elementsToHash authenticator) ".") with
  | Err err => Err err
  | Ok hashedElementsString =>
      match hashAndEncode sha1.New
              (hashedElementsString ++ "." ++ sharedSecret authenticator)%string
      with
      | Err err => Err err
      | Ok signature => Ok signature
      end
  end.

(** ** Request and response documents *)

Module xml.
(** [xml.Name] *)
Record Name : Type := mkName { Space : string; Local : string }.
End xml.

Module Amount.
Record t : Type := mk { Amount : string; Currency : string }.
End Amount.

Module AutoSettle.
Record t : Type := mk { Flag : string }.
End AutoSettle.

Module CVN.
Record t : Type := mk { Number : string }.
End CVN.

Module PaymentData.
Record t : Type := mk { CVN : CVN.t }.
End PaymentData.

Module Country.
Record t : Type := mk { Code : string }.
End Country.

Module Address.
Record t : Type := mk {
  Line1 : string;
  Line2 : string;
  Line3 : string;
  City : string;
  County : string;
  PostCode : string;
  Country : option Country.t }.
End Address.

Module PhoneNumbers.
Record t : Type := mk {
  Home : string;
  Work : string;
  Fax : string;
  Mobile : string }.
End PhoneNumbers.

Module Payer.
Record t : Type := mk {
  Ref : string;
  PayerType : string;
  Title : string;
  FirstName : string;
  Surname : string;
  Company : string;
  Email : string;
  DateOfBirth : string;
  State : string;
  PassPhrase : string;
  VatNumber : string;
  VariableReference : string;
  CustomerNumber : string;
  Address : option Address.t;
  PhoneNumbers : option PhoneNumbers.t }.
End Payer.

Module Card.
Record t : Type := mk {
  Ref : string;
  PayerRef : string;
  Number : string;
  ExpDate : string;
  CardHolderName : string;
  Type_ : string }.
End Card.

(** [CardStorageRequest]; the embedded [serviceAuthenticator] is the last
    field, and its two fields are reached through it. *)
Module CardStorageRequest.
Record t : Type := mk {
  XMLName : xml.Name;
  Type_ : string;
  Timestamp : string;
  MerchantID : string;
  Account : string;
  Channel : string;
  OrderID : string;
  PayerRef : string;
  PaymentMethod : string;
  Sha1Hash : string;
  Amount : option Amount.t;
  AutoSettle : option AutoSettle.t;
  PaymentData : option PaymentData.t;
  Payer : option Payer.t;
  Card : option Card.t;
  authenticator : serviceAuthenticator }.

(** Assignments through the request pointer. *)
Definition set_Type (v : string) (r : t) : t :=
  mk (XMLName r) v (Timestamp r) (MerchantID r) (Account r) (Channel r)
     (OrderID r) (PayerRef r) (PaymentMethod r) (Sha1Hash r) (Amount r)
     (AutoSettle r) (PaymentData r) (Payer r) (Card r) (authenticator r).

Definition set_Timestamp (v : string) (r : t) : t :=
  mk (XMLName r) (Type_ r) v (MerchantID r) (Account r) (Channel r)
     (OrderID r) (PayerRef r) (PaymentMethod r) (Sha1Hash r) (Amount r)
     (AutoSettle r) (PaymentData r) (Payer r) (Card r) (authenticator r).

Definition set_MerchantID (v : string) (r : t) : t :=
  mk (XMLName r) (Type_ r) (Timestamp r) v (Account r) (Channel r)
     (OrderID r) (PayerRef r) (PaymentMethod r) (Sha1Hash r) (Amount r)
     (AutoSettle r) (PaymentData r) (Payer r) (Card r) (authenticator r).

Definition set_Sha1Hash (v : string) (r : t) : t :=
  mk (XMLName r) (Type_ r) (Timestamp r) (MerchantID r) (Account r)
     (Channel r) (OrderID r) (PayerRef r) (PaymentMethod r) v (Amount r)
     (AutoSettle r) (PaymentData r) (Payer r) (Card r) (authenticator r).

Definition set_authenticator (v : serviceAuthenticator) (r : t) : t :=
  mk (XMLName r) (Type_ r) (Timestamp r) (MerchantID r) (Account r)
     (Channel r) (OrderID r) (PayerRef r) (PaymentMethod r) (Sha1Hash r)
     (Amount r) (AutoSettle r) (PaymentData r) (Payer r) (Card r) v.

Definition set_elementsToHash (v : list string) (r : t) : t :=
  set_authenticator (mkAuthenticator v (sharedSecret (authenticator r))) r.

Definition set_sharedSecret (v : string) (r : t) : t :=
  set_authenticator (mkAuthenticator (elementsToHash (authenticator r)) v) r.

(** The getters for the values used within the hash. *)

Definition getPayerRef (request : t) : string :=
  match Payer request with
  | Some payer => Payer.Ref payer
  | None => ""
  end.

Definition getAmount (request : t) : string :=
  match Amount request with
  | Some amount => Amount.Amount amount
  | None => ""
  end.

Definition getCurrency (request : t) : string :=
  match Amount request with
  | Some amount => Amount.Currency amount
  | None => ""
  end.

Definition getCardHolderName (request : t) : string :=
  match Card request with
  | Some card => Card.CardHolderName card
  | None => ""
  end.

Definition getCardNumber (request : t) : string :=
  match Card request with
  | Some card => Card.Number card
  | None => ""
  end.

Definition getCardRef (request : t) : string :=
  match Card request with
  | Some card => Card.Ref card
  | None => ""
  end.

Definition getCardExpDate (request : t) : string :=
  match Card request with
  | Some card => Card.ExpDate card
  | None => ""
  end.

End CardStorageRequest.

Module CardIssuer.
Record t : Type := mk {
  Bank : string;
  Country : string;
  CountryCode : string;
  Region : string }.
End CardIssuer.

Module ServiceResponse.
Record t : Type := mk {
  XMLName : xml.Name;
  Timestamp : string;
  MerchantID : string;
  Account : string;
  OrderID : string;
  AuthCode : string;
  Result : string;
  CVNResult : string;
  AVSPostcodeResponse : string;
  AVSAddressResponse : string;
  BatchId : string;
  Message : string;
  PasRef : string;
  TimeTaken : string;
  AuthTimeTaken : string;
  CardIssuer : option CardIssuer.t;
  Sha1Hash : string;
  authenticator : serviceAuthenticator }.

Definition set_authenticator (v : serviceAuthenticator) (r : t) : t :=
  mk (XMLName r) (Timestamp r) (MerchantID r) (Account r) (OrderID r)
     (AuthCode r) (Result r) (CVNResult r) (AVSPostcodeResponse r)
     (AVSAddressResponse r) (BatchId r) (Message r) (PasRef r) (TimeTaken r)
     (AuthTimeTaken r) (CardIssuer r) (Sha1Hash r) v.

Definition set_elementsToHash (v : list string) (r : t) : t :=
  set_authenticator (mkAuthenticator v (sharedSecret (authenticator r))) r.

Definition set_sharedSecret (v : string) (r : t) : t :=
  set_authenticator (mkAuthenticator (elementsToHash (authenticator r)) v) r.

(** [validateResponseHash] *)
Definition validateResponseHash (authenticator_ : t)
    (httpResponse : http.Response.t) : option error :=
  match buildSignature (authenticator authenticator_) with
  | Err err => Some err
  | Ok signature =>
      if String.eqb signature (Sha1Hash authenticator_)
      then None
      else Some (ValidationError httpResponse)
  end.

End ServiceResponse.

(** ** The wire document of a request *)

(** [xml.Encoder.Encode] on a [CardStorageRequest], following the struct
    tags: attributes in field order inside the start tag, then one child
    per exported field; [omitempty] drops an empty string, and a nil
    pointer is dropped always. The embedded [serviceAuthenticator] has no
    exported field, so the encoder finds nothing to write for it. The
    element name comes from the tag of [XMLName], whatever the field
    holds. Text and attribute values go through [xml.EscapeString], which
    is a parameter here. *)
Module marshal.
Section WithEscape.

Variable EscapeString : string -> string.

Local Open Scope string_scope.

Definition quote : string := String "034"%char "".

Definition attr (name value : string) : string :=
  " " ++ name ++ "=" ++ quote ++ EscapeString value ++ quote.

Definition element (name attrs content : string) : string :=
  "<" ++ name ++ attrs ++ ">" ++ content ++ "</" ++ name ++ ">".

Definition chardata (name value : string) : string :=
  element name "" (EscapeString value).

Definition chardata_omitempty (name value : string) : string :=
  match value with
  | EmptyString => ""
  | _ => chardata name value
  end.

Definition pointer {A : Type} (enc : A -> string) (p : option A) : string :=
  match p with
  | Some a => enc a
  | None => ""
  end.

Definition Amount (name : string) (a : Amount.t) : string :=
  element name (attr "currency" (Amount.Currency a))
    (EscapeString (Amount.Amount a)).

Definition AutoSettle (name : string) (a : AutoSettle.t) : string :=
  element name (attr "flag" (AutoSettle.Flag a)) "".

Definition CVN (name : string) (c : CVN.t) : string :=
  element name "" (chardata "number" (CVN.Number c)).

Definition PaymentData (name : string) (d : PaymentData.t) : string :=
  element name "" (CVN "cvn" (PaymentData.CVN d)).

Definition Country (name : string) (c : Country.t) : string :=
  element name (attr "ref" (Country.Code c)) "".

Definition Address (name : string) (a : Address.t) : string :=
  element name ""
    (chardata "line1" (Address.Line1 a)
     ++ chardata "line2" (Address.Line2 a)
     ++ chardata "line3" (Address.Line3 a)
     ++ chardata "city" (Address.City a)
     ++ chardata "county" (Address.County a)
     ++ chardata "postcode" (Address.PostCode a)
     ++ pointer (Country "country") (Address.Country a)).

Definition PhoneNumbers (name : string) (n : PhoneNumbers.t) : string :=
  element name ""
    (chardata "home" (PhoneNumbers.Home n)
     ++ chardata "work" (PhoneNumbers.Work n)
     ++ chardata "fax" (PhoneNumbers.Fax n)
     ++ chardata "mobile" (PhoneNumbers.Mobile n)).

Definition Payer (name : string) (p : Payer.t) : string :=
  element name
    (attr "ref" (Payer.Ref p) ++ attr "type" (Payer.PayerType p)
     ++ attr "title" (Payer.Title p))
    (chardata "firstname" (Payer.FirstName p)
     ++ chardata "surname" (Payer.Surname p)
     ++ chardata "company" (Payer.Company p)
     ++ chardata "email" (Payer.Email p)
     ++ chardata "dateofbirth" (Payer.DateOfBirth p)
     ++ chardata "state" (Payer.State p)
     ++ chardata "passphrase" (Payer.PassPhrase p)
     ++ chardata "vatnumber" (Payer.VatNumber p)
     ++ chardata "varref" (Payer.VariableReference p)
     ++ chardata "custnum" (Payer.CustomerNumber p)
     ++ pointer (Address "address") (Payer.Address p)
     ++ pointer (PhoneNumbers "phonenumbers") (Payer.PhoneNumbers p)).

Definition Card (name : string) (c : Card.t) : string :=
  element name ""
    (chardata "ref" (Card.Ref c)
     ++ chardata "payerref" (Card.PayerRef c)
     ++ chardata "number" (Card.Number c)
     ++ chardata "expdate" (Card.ExpDate c)
     ++ chardata "chname" (Card.CardHolderName c)
     ++ chardata "type" (Card.Type_ c)).

Definition CardStorageRequest (r : CardStorageRequest.t) : string :=
  element "request"
    (attr "type" (CardStorageRequest.Type_ r)
     ++ attr "timestamp" (CardStorageRequest.Timestamp r))
    (chardata "merchantid" (CardStorageRequest.MerchantID r)
     ++ chardata_omitempty "account" (CardStorageRequest.Account r)
     ++ chardata_omitempty "channel" (CardStorageRequest.Channel r)
     ++ chardata "orderid" (CardStorageRequest.OrderID r)
     ++ chardata "payerref" (CardStorageRequest.PayerRef r)
     ++ chardata_omitempty "paymentmethod"
          (CardStorageRequest.PaymentMethod r)
     ++ chardata "sha1hash" (CardStorageRequest.Sha1Hash r)
     ++ pointer (Amount "amount") (CardStorageRequest.Amount r)
     ++ pointer (AutoSettle "autosettle") (CardStorageRequest.AutoSettle r)
     ++ pointer (PaymentData "paymentdata")
          (CardStorageRequest.PaymentData r)
     ++ pointer (Payer "payer") (CardStorageRequest.Payer r)
     ++ pointer (Card "card") (CardStorageRequest.Card r)).

End WithEscape.

(** [xml.EscapeString] on printable ASCII and the three white-space
    controls it rewrites; the replacement of bytes that are not valid
    UTF-8 or not XML characters is outside this instance. *)
Definition escapeChar (c : ascii) : string :=
  match N_of_ascii c with
  | 34%N => "&#34;"
  | 39%N => "&#39;"
  | 38%N => "&amp;"
  | 60%N => "&lt;"
  | 62%N => "&gt;"
  | 9%N => "&#x9;"
  | 10%N => "&#xA;"
  | 13%N => "&#xD;"
  | _ => String c ""
  end.

Fixpoint escapeASCII (s : string) : string :=
  match s with
  | EmptyString => ""
  | String c rest => (escapeChar c ++ escapeASCII rest)%string
  end.

End marshal.

(** ** Package [time] *)

(** [TimeFormatter] *)
Class TimeFormatter (T : Type) : Type := {
  Format : T -> string -> string }.

Definition formatTime {T} `{TimeFormatter T} (t : T) (layout : string)
  : string :=
  Format t layout.

Module time.

(** A [time.Time] seen through [Date] and [Clock] in its own location. *)
Record Time : Type := mkTime {
  Year : Z;
  Month : Z;
  Day : Z;
  Hour : Z;
  Minute : Z;
  Second : Z }.

(** [appendInt]: the decimal digits of [x], padded with zeros on the left
    up to [width], after a minus sign when [x] is negative. *)
Definition appendInt (x : Z) (width : nat) : string :=
  let digits := NilZero.string_of_uint (N.to_uint (Z.to_N (Z.abs x))) in
  let sign := if x <? 0 then "-" else "" in
  let pad :=
    string_of_list_ascii (repeat "0"%char (width - String.length digits)) in
  (sign ++ pad ++ digits)%string.

(** [Time.Format] for layouts made of the reference chunks 2006, 01, 02,
    15, 04 and 05, which [nextStdChunk] reads as the four-digit year and
    the zero-padded month, day, hour, minute and second; any other
    character is copied. The remaining reference chunks (names, zones,
    12-hour clock, fractions) are outside this model. *)
Fixpoint Format (t : Time) (layout : string) : string :=
  match layout with
  | String "2" (String "0" (String "0" (String "6" rest))) =>
      (appendInt (Year t) 4 ++ Format t rest)%string
  | String "0" (String "1" rest) =>
      (appendInt (Month t) 2 ++ Format t rest)%string
  | String "0" (String "2" rest) =>
      (appendInt (Day t) 2 ++ Format t rest)%string
  | String "1" (String "5" rest) =>
      (appendInt (Hour t) 2 ++ Format t rest)%string
  | String "0" (String "4" rest) =>
      (appendInt (Minute t) 2 ++ Format t rest)%string
  | String "0" (String "5" rest) =>
      (appendInt (Second t) 2 ++ Format t rest)%string
  | String c rest => String c (Format t rest)
  | EmptyString => EmptyString
  end.

End time.

#[export] Instance Time_TimeFormatter : TimeFormatter time.Time := {
  Format := time.Format }.

(** ** The client *)

Definition DefaultBaseURL : string := "https://test.realexpayments.com".
Definition DefaultMerchantID : string := "realexsandbox".
Definition DefaultHashSecret : string := "Po8lRRT67a".
Definition DefaultRebateHash : string := "Po8lRRT67a".
Definition DefaultPath : string := "/epage-remote.cgi".

(** [url.Parse(DefaultBaseURL)]: it succeeds, with an empty path. *)
Definition parsedDefaultBaseURL : url.URL :=
  url.mkURL "https" "test.realexpayments.com" "".

(** [Client]. [HTTPClient] is the round trip of the [http.Client] it points
    to; [BaseURL] is a pointer and may be nil; [CardStorage] points to a
    service that points back to this client, so the client keeps only the
    service's [Path]. *)
Module Client.
Record t : Type := mk {
  HTTPClient : http.Request.t -> result http.Response.t;
  BaseURL : option url.URL;
  HashSecret : string;
  RebateHashSecret : string;
  MerchantID : string;
  APIPath : string;
  CardStorage : string }.
End Client.

(** [service]: [CardStorageService] embeds it. *)
Record service : Type := mkService {
  client : Client.t;
  Path : string }.

(** [client.CardStorage] *)
Definition CardStorage (c : Client.t) : service :=
  mkService c (Client.CardStorage c).

(** [NewClient]. An option receives the client pointer: it maps the client it is
    given to the client it leaves behind. [transport] is the round trip of
    a fresh [http.Client]. The check reads [client.BaseURL.Path], which
    panics on a nil [BaseURL]. *)
Definition NewClient (transport : http.Request.t -> result http.Response.t)
    (options : list (Client.t -> Client.t)) : outcome (result Client.t) :=
  let httpClient := transport in
  let baseURL := parsedDefaultBaseURL in
  let client_ :=
    Client.mk httpClient (Some baseURL) DefaultHashSecret DefaultRebateHash
      DefaultMerchantID "" DefaultPath in
  let client_ := fold_left (fun c option => option c) options client_ in
  match Client.BaseURL client_ with
  | None => Panicked
  | Some u =>
      if strings.HasSuffix (url.Path u) "/"
      then Returned (Err (TrailingSlashError u))
      else Returned (Ok client_)
  end.

(** What an operation hands back: a response pointer, an [http.Response]
    pointer and an error, each possibly nil. *)
Definition reply : Type :=
  (option ServiceResponse.t * option http.Response.t * option error)%type.

(** The eight operations of [CardStorageServiceAPI]. *)
Inductive Operation : Type :=
| OpAuthorize
| OpValidate
| OpCredit
| OpCreateCustomer
| OpEditCustomer
| OpStoreCard
| OpEditCard
| OpDeleteCard.

(** ** The pipeline and the builders *)

Section Pipeline.

(** The libraries under the pipeline: reference resolution of
    [url.URL.Parse]; [http.NewRequest], given the resolved URL itself where
    the code hands over its [String()]; the XML decoder reading a response
    body into a fresh [ServiceResponse]; and [xml.EscapeString]. *)
Variable URL_Parse : url.URL -> string -> result url.URL.
Variable http_NewRequest :
  string -> url.URL -> option string -> result http.Request.t.
Variable xml_Decode : string -> result ServiceResponse.t.
Variable EscapeString : string -> string.

(** The clock: [Now()] yields a value that can be formatted. *)
Context {T : Type} `{TimeFormatter T}.
Variable Now : unit -> T.

(** [Client.NewRequest]; [encode] is what [xml.Encoder.Encode] does on the
    dynamic type of [body]. *)
Definition NewRequest {A : Type} (encode : A -> result string)
    (client_ : Client.t) (method urlStr : string) (body : option A)
  : outcome (result http.Request.t) :=
  match Client.BaseURL client_ with
  | None => Panicked
  | Some base =>
      match URL_Parse base urlStr with
      | Err err => Returned (Err err)
      | Ok rel =>
          let buffer :=
            match body with
            | Some b =>
                match encode b with
                | Err err => Err err
                | Ok doc => Ok (Some doc)
                end
            | None => Ok None
            end in
          match buffer with
          | Err err => Returned (Err err)
          | Ok buffer =>
              match http_NewRequest method rel buffer with
              | Err err => Returned (Err err)
              | Ok req =>
                  Returned
                    (Ok (http.Request.mk (http.Request.Method req)
                           (http.Request.URL req) (http.Request.Body req)
                           "application/xml"))
              end
          end
      end
  end.

(** [Client.Do] with a [ServiceResponse] pointer as [v]: the decoded value
    replaces the one [v] pointed to. *)
Definition Do (client_ : Client.t) (req : http.Request.t)
  : result (http.Response.t * ServiceResponse.t) :=
  match Client.HTTPClient client_ req with
  | Err err => Err err
  | Ok resp =>
      match xml_Decode (http.Response.Body resp) with
      | Err err => Err err
      | Ok v => Ok (resp, v)
      end
  end.

(** [service.transmitRequest] *)
Definition transmitRequest {A : Type} (encode : A -> result string)
    (transmitter : service) (request : A) : outcome reply :=
  match NewRequest encode (client transmitter) "POST" (Path transmitter)
          (Some request) with
  | Panicked => Panicked
  | Returned (Err err) => Returned (None, None, Some err)
  | Returned (Ok httpRequest) =>
      match Do (client transmitter) httpRequest with
      | Err err => Returned (None, None, Some err)
      | Ok (httpResponse, response) =>
          let response :=
            ServiceResponse.set_elementsToHash
              [ServiceResponse.Timestamp response;
               ServiceResponse.MerchantID response;
               ServiceResponse.OrderID response;
               ServiceResponse.Result response;
               ServiceResponse.Message response;
               ServiceResponse.PasRef response;
               ServiceResponse.AuthCode response] response in
          let response :=
            ServiceResponse.set_sharedSecret
              (Client.HashSecret (client transmitter)) response in
          match ServiceResponse.validateResponseHash response httpResponse
          with
          | Some err => Returned (None, Some httpResponse, Some err)
          | None => Returned (Some response, Some httpResponse, None)
          end
      end
  end.

(** The encoder of a [CardStorageRequest] body; it cannot fail. *)
Definition encodeRequest (request : CardStorageRequest.t) : result string :=
  Ok (marshal.CardStorageRequest EscapeString request).

Import CardStorageRequest.

(** Each builder returns the request as the call leaves it behind the
    caller's pointer, and what it returns (or that it panicked). *)

Definition Authorize (cardStorage : service) (request : CardStorageRequest.t)
  : CardStorageRequest.t * outcome reply :=
  let request := set_Timestamp (formatTime (Now tt) "20060102150405") request in
  let request := set_MerchantID (Client.MerchantID (client cardStorage)) request in
  let request := set_Type "receipt-in" request in
  match Amount request with
  | None => (request, Panicked)
  | Some amount =>
      let request :=
        set_elementsToHash
          [Timestamp request; MerchantID request; OrderID request;
           Amount.Amount amount; Amount.Currency amount; PayerRef request]
          request in
      let request :=
        set_sharedSecret (Client.HashSecret (client cardStorage)) request in
      match buildSignature (authenticator request) with
      | Err err => (request, Returned (None, None, Some err))
      | Ok signature =>
          let request := set_Sha1Hash signature request in
          (request, transmitRequest encodeRequest cardStorage request)
      end
  end.

Definition Validate (cardStorage : service) (request : CardStorageRequest.t)
  : CardStorageRequest.t * outcome reply :=
  let request := set_Timestamp (formatTime (Now tt) "20060102150405") request in
  let request := set_MerchantID (Client.MerchantID (client cardStorage)) request in
  let request := set_Type "receipt-in-otb" request in
  let request :=
    set_elementsToHash
      [Timestamp request; MerchantID request; OrderID request;
       PayerRef request] request in
  let request :=
    set_sharedSecret (Client.HashSecret (client cardStorage)) request in
  match buildSignature (authenticator request) with
  | Err err => (request, Returned (None, None, Some err))
  | Ok signature =>
      let request := set_Sha1Hash signature request in
      (request, transmitRequest encodeRequest cardStorage request)
  end.

Definition Credit (cardStorage : service) (request : CardStorageRequest.t)
  : CardStorageRequest.t * outcome reply :=
  let request := set_Timestamp (formatTime (Now tt) "20060102150405") request in
  let request := set_MerchantID (Client.MerchantID (client cardStorage)) request in
  let request := set_Type "payment-out" request in
  let request :=
    set_elementsToHash
      [Timestamp request; MerchantID request; OrderID request;
       getAmount request; getCurrency request; PayerRef request] request in
  let request :=
    set_sharedSecret (Client.RebateHashSecret (client cardStorage)) request in
  match buildSignature (authenticator request) with
  | Err err => (request, Returned (None, None, Some err))
  | Ok signature =>
      let request := set_Sha1Hash signature request in
      (request, transmitRequest encodeRequest cardStorage request)
  end.

Definition CreateCustomer (cardStorage : service)
    (request : CardStorageRequest.t) : CardStorageRequest.t * outcome reply :=
  let request := set_Timestamp (formatTime (Now tt) "20060102150405") request in
  let request := set_MerchantID (Client.MerchantID (client cardStorage)) request in
  let request := set_Type "payer-new" request in
  let request :=
    set_elementsToHash
      [Timestamp request; MerchantID request; OrderID request;
       getAmount request; getCurrency request; getPayerRef request]
      request in
  let request :=
    set_sharedSecret (Client.HashSecret (client cardStorage)) request in
  match buildSignature (authenticator request) with
  | Err err => (request, Returned (None, None, Some err))
  | Ok signature =>
      let request := set_Sha1Hash signature request in
      (request, transmitRequest encodeRequest cardStorage request)
  end.

Definition EditCustomer (cardStorage : service)
    (request : CardStorageRequest.t) : CardStorageRequest.t * outcome reply :=
  let request := set_Timestamp (formatTime (Now tt) "20060102150405") request in
  let request := set_MerchantID (Client.MerchantID (client cardStorage)) request in
  let request := set_Type "payer-edit" request in
  let request :=
    set_elementsToHash
      [Timestamp request; MerchantID request; OrderID request;
       getAmount request; getCurrency request; PayerRef request] request in
  let request :=
    set_sharedSecret (Client.HashSecret (client cardStorage)) request in
  match buildSignature (authenticator request) with
  | Err err => (request, Returned (None, None, Some err))
  | Ok signature =>
      let request := set_Sha1Hash signature request in
      (request, transmitRequest encodeRequest cardStorage request)
  end.

Definition StoreCard (cardStorage : service) (request : CardStorageRequest.t)
  : CardStorageRequest.t * outcome reply :=
  let request := set_Timestamp (formatTime (Now tt) "20060102150405") request in
  let request := set_MerchantID (Client.MerchantID (client cardStorage)) request in
  let request := set_Type "card-new" request in
  let request :=
    set_elementsToHash
      [Timestamp request; MerchantID request; OrderID request;
       getAmount request; getCurrency request; PayerRef request;
       getCardHolderName request; getCardNumber request] request in
  let request :=
    set_sharedSecret (Client.HashSecret (client cardStorage)) request in
  match buildSignature (authenticator request) with
  | Err err => (request, Returned (None, None, Some err))
  | Ok signature =>
      let request := set_Sha1Hash signature request in
      (request, transmitRequest encodeRequest cardStorage request)
  end.

Definition EditCard (cardStorage : service) (request : CardStorageRequest.t)
  : CardStorageRequest.t * outcome reply :=
  let request := set_Timestamp (formatTime (Now tt) "20060102150405") request in
  let request := set_MerchantID (Client.MerchantID (client cardStorage)) request in
  let request := set_Type "card-update-card" request in
  let request :=
    set_elementsToHash
      [Timestamp request; MerchantID request; PayerRef request;
       getCardRef request; getCardExpDate request; getCardNumber request]
      request in
  let request :=
    set_sharedSecret (Client.HashSecret (client cardStorage)) request in
  match buildSignature (authenticator request) with
  | Err err => (request, Returned (None, None, Some err))
  | Ok signature =>
      let request := set_Sha1Hash signature request in
      (request, transmitRequest encodeRequest cardStorage request)
  end.

Definition DeleteCard (cardStorage : service) (request : CardStorageRequest.t)
  : CardStorageRequest.t * outcome reply :=
  let request := set_Timestamp (formatTime (Now tt) "20060102150405") request in
  let request := set_MerchantID (Client.MerchantID (client cardStorage)) request in
  let request := set_Type "card-cancel-card" request in
  let request :=
    set_elementsToHash
      [Timestamp request; MerchantID request; PayerRef request;
       getCardRef request] request in
  let request :=
    set_sharedSecret (Client.HashSecret (client cardStorage)) request in
  match buildSignature (authenticator request) with
  | Err err => (request, Returned (None, None, Some err))
  | Ok signature =>
      let request := set_Sha1Hash signature request in
      (request, transmitRequest encodeRequest cardStorage request)
  end.

(** The method of [CardStorageServiceAPI] an operation names. *)
Definition invoke (op : Operation)
  : service -> CardStorageRequest.t -> CardStorageRequest.t * outcome reply :=
  match op with
  | OpAuthorize => Authorize
  | OpValidate => Validate
  | OpCredit => Credit
  | OpCreateCustomer => CreateCustomer
  | OpEditCustomer => EditCustomer
  | OpStoreCard => StoreCard
  | OpEditCard => EditCard
  | OpDeleteCard => DeleteCard
  end.

End Pipeline.

(** * The vocabulary of the specification *)

(** The chained signature in the words of the specification: join with a
    dot, SHA-1, hex, append a dot and the secret, SHA-1, hex. *)
Definition hexSHA1 (s : string) : string :=
  hex.EncodeToString (sha1.SHA1 (bytes_of_string s)).

Definition computeChainedSignature (elements : list string) (secret : string)
  : string :=
  hexSHA1 (hexSHA1 (strings.Join elements ".") ++ "." ++ secret)%string.

(** The signing context [transmitRequest] installs in a decoded response
    before it validates it. *)
Definition responseContext (client_ : Client.t) (response : ServiceResponse.t)
  : serviceAuthenticator :=
  mkAuthenticator
    [ServiceResponse.Timestamp response;
     ServiceResponse.MerchantID response;
     ServiceResponse.OrderID response;
     ServiceResponse.Result response;
     ServiceResponse.Message response;
     ServiceResponse.PasRef response;
     ServiceResponse.AuthCode response]
    (Client.HashSecret client_).

(** The operation type code of each builder. *)
Definition typeCode (op : Operation) : string :=
  match op with
  | OpAuthorize => "receipt-in"
  | OpValidate => "receipt-in-otb"
  | OpCredit => "payment-out"
  | OpCreateCustomer => "payer-new"
  | OpEditCustomer => "payer-edit"
  | OpStoreCard => "card-new"
  | OpEditCard => "card-update-card"
  | OpDeleteCard => "card-cancel-card"
  end.

(** The columns of the table of elements to hash. [payerRef] is the payer
    reference of the request header; [payerGroupRef] is the reference
    attribute of the Payer group, which the table does not name. *)
Inductive Field : Type :=
| timestamp
| merchantId
| orderId
| amount
| currency
| payerRef
| payerGroupRef
| cardHolderName
| cardNumber
| cardRef
| cardExpiry.

Inductive Secret : Type :=
| ordinary
| rebate.

(** The table of section 4.2, row by row. *)
Definition table (op : Operation) : list Field * Secret :=
  match op with
  | OpAuthorize =>
      ([timestamp; merchantId; orderId; amount; currency; payerRef], ordinary)
  | OpValidate => ([timestamp; merchantId; orderId; payerRef], ordinary)
  | OpCredit =>
      ([timestamp; merchantId; orderId; amount; currency; payerRef], rebate)
  | OpCreateCustomer =>
      ([timestamp; merchantId; orderId; amount; currency; payerRef], ordinary)
  | OpEditCustomer =>
      ([timestamp; merchantId; orderId; amount; currency; payerRef], ordinary)
  | OpStoreCard =>
      ([timestamp; merchantId; orderId; amount; currency; payerRef;
        cardHolderName; cardNumber], ordinary)
  | OpEditCard =>
      ([timestamp; merchantId; payerRef; cardRef; cardExpiry; cardNumber],
       ordinary)
  | OpDeleteCard => ([timestamp; merchantId; payerRef; cardRef], ordinary)
  end.

(** The table as the builders implement it: the row of CreateCustomer ends
    with the reference of the Payer group. *)
Definition builderTable (op : Operation) : list Field * Secret :=
  match op with
  | OpCreateCustomer =>
      ([timestamp; merchantId; orderId; amount; currency; payerGroupRef],
       ordinary)
  | _ => table op
  end.

(** The value a column takes in a stamped request; a column of an absent
    group is the empty string. *)
Definition fieldValue (request : CardStorageRequest.t) (f : Field) : string :=
  match f with
  | timestamp => CardStorageRequest.Timestamp request
  | merchantId => CardStorageRequest.MerchantID request
  | orderId => CardStorageRequest.OrderID request
  | amount =>
      match CardStorageRequest.Amount request with
      | Some a => Amount.Amount a
      | None => ""
      end
  | currency =>
      match CardStorageRequest.Amount request with
      | Some a => Amount.Currency a
      | None => ""
      end
  | payerRef => CardStorageRequest.PayerRef request
  | payerGroupRef =>
      match CardStorageRequest.Payer request with
      | Some payer => Payer.Ref payer
      | None => ""
      end
  | cardHolderName =>
      match CardStorageRequest.Card request with
      | Some c => Card.CardHolderName c
      | None => ""
      end
  | cardNumber =>
      match CardStorageRequest.Card request with
      | Some c => Card.Number c
      | None => ""
      end
  | cardRef =>
      match CardStorageRequest.Card request with
      | Some c => Card.Ref c
      | None => ""
      end
  | cardExpiry =>
      match CardStorageRequest.Card request with
      | Some c => Card.ExpDate c
      | None => ""
      end
  end.

Definition secretValue (client_ : Client.t) (s : Secret) : string :=
  match s with
  | ordinary => Client.HashSecret client_
  | rebate => Client.RebateHashSecret client_
  end.

(** The signing context a row of a table prescribes for a stamped
    request. *)
Definition rowContext (row : list Field * Secret) (client_ : Client.t)
    (request : CardStorageRequest.t) : serviceAuthenticator :=
  mkAuthenticator (map (fieldValue request) (fst row))
    (secretValue client_ (snd row)).

(** A request whose optional groups Amount, Payer and Card are present
    with every field empty wherever the given one has none. *)
Definition emptyAmount : Amount.t := Amount.mk "" "".
Definition emptyPayer : Payer.t :=
  Payer.mk "" "" "" "" "" "" "" "" "" "" "" "" "" None None.
Definition emptyCard : Card.t := Card.mk "" "" "" "" "" "".

Definition orEmpty {A : Type} (empty : A) (p : option A) : option A :=
  match p with
  | Some a => Some a
  | None => Some empty
  end.

Definition withEmptyGroups (r : CardStorageRequest.t) : CardStorageRequest.t :=
  CardStorageRequest.mk
    (CardStorageRequest.XMLName r) (CardStorageRequest.Type_ r)
    (CardStorageRequest.Timestamp r) (CardStorageRequest.MerchantID r)
    (CardStorageRequest.Account r) (CardStorageRequest.Channel r)
    (CardStorageRequest.OrderID r) (CardStorageRequest.PayerRef r)
    (CardStorageRequest.PaymentMethod r) (CardStorageRequest.Sha1Hash r)
    (orEmpty emptyAmount (CardStorageRequest.Amount r))
    (CardStorageRequest.AutoSettle r) (CardStorageRequest.PaymentData r)
    (orEmpty emptyPayer (CardStorageRequest.Payer r))
    (orEmpty emptyCard (CardStorageRequest.Card r))
    (CardStorageRequest.authenticator r).

(** A path that ends with the separator. *)
Definition endsWithSlash (path : string) : Prop :=
  exists prefix : string, path = (prefix ++ "/")%string.

(** The client [NewClient] starts from, and the client after the options
    were applied in the order given. *)
Definition defaultClient
    (transport : http.Request.t -> result http.Response.t) : Client.t :=
  Client.mk transport (Some parsedDefaultBaseURL) DefaultHashSecret
    DefaultRebateHash DefaultMerchantID "" DefaultPath.

Fixpoint applyOptions (options : list (Client.t -> Client.t)) (c : Client.t)
  : Client.t :=
  match options with
  | [] => c
  | option :: rest => applyOptions rest (option c)
  end.

(** Decimal digits. *)
Definition is_digit (c : ascii) : bool :=
  let n := Z.of_N (N_of_ascii c) in
  (48 <=? n) && (n <=? 57).

(** A string of exactly [width] decimal digits. *)
Definition digitsOfWidth (width : nat) (s : string) : bool :=
  (String.length s =? width)%nat && hex.all_chars is_digit s.

(** A time whose calendar fields lie in the ranges [Date] and [Clock]
    return, with a year of at most four digits. *)
Definition fourDigitYear (t : time.Time) : Prop :=
  0 <= time.Year t <= 9999
  /\ 1 <= time.Month t <= 12
  /\ 1 <= time.Day t <= 31
  /\ 0 <= time.Hour t <= 23
  /\ 0 <= time.Minute t <= 59
  /\ 0 <= time.Second t <= 59.

(** ** Fixtures of the test suite *)

Module fixture.

(** The clock of the tests: 2018-06-14 09:50:00. *)
Definition Now (_ : unit) : time.Time := time.mkTime 2018 6 14 9 50 0.

(** Reference resolution of a rooted path against a base without path. *)
Definition URL_Parse (base : url.URL) (ref : string) : result url.URL :=
  Ok (url.mkURL (url.Scheme base) (url.Host base) ref).

Definition http_NewRequest (method : string) (u : url.URL)
    (body : option string) : result http.Request.t :=
  Ok (http.Request.mk method u body "").

(** The response document the test server of the Authorize test sends,
    already decoded. *)
Definition authorised (sha1hash : string) : ServiceResponse.t :=
  ServiceResponse.mk (xml.mkName "" "response") "20180731090859" "MerchantId"
    "internet" "N6qsk4kYRZihmPrTXWYS6g" "12345" "00" "M" "M" "M" "319623"
    "[ test system ] AUTHORISED" "14610544313177922" "1" "0"
    (Some (CardIssuer.mk "AIB BANK" "IRELAND" "IE" "EUR")) sha1hash
    (mkAuthenticator [] "").

Definition xml_Decode (sha1hash : string) (_ : string)
  : result ServiceResponse.t :=
  Ok (authorised sha1hash).

(** A server that answers every request with status 200. *)
Definition transport (req : http.Request.t) : result http.Response.t :=
  Ok (http.Response.mk 200 req "").

Definition client : Client.t := defaultClient transport.

(** The request of the Authorize test, with the Amount group or without. *)
Definition authRequest (a : option Amount.t) : CardStorageRequest.t :=
  CardStorageRequest.mk (xml.mkName "" "") "" "" "" "internet" "ECOM"
    "AiCibJ5UR7utURy_slxhJw" "03e28f0e-492e-80bd-20ec318e9334"
    "3c4af936-483e-a393-f558bec2fb2a" ""
    a (Some (AutoSettle.mk "1")) (Some (PaymentData.mk (CVN.mk "123")))
    None None (mkAuthenticator [] "").

(** The request of the CreateCustomer test: no payer reference in the
    header, a full Payer group. *)
Definition createCustomerRequest : CardStorageRequest.t :=
  CardStorageRequest.mk (xml.mkName "" "") "" "" "" "internet" "ECOM"
    "AiCibJ5UR7utURy_slxhJw" "" "3c4af936-483e-a393-f558bec2fb2a" ""
    (Some (Amount.mk "10000" "CAD")) (Some (AutoSettle.mk "1"))
    (Some (PaymentData.mk (CVN.mk "123")))
    (Some (Payer.mk "03e28f0e-492e-80bd-20ec318e9334" "Retail" "Mr." "James"
             "Mason" "Global Payments" "text@mail.com" "19851222" "yorkshire"
             "montgomery" "gb 1234" "Car Part" "E8953893489"
             (Some (Address.mk "Flat 123" "House 123" "Cul-de-sac" "Halifax"
                      "West Yorkshire" "W6 9HR" (Some (Country.mk "GB"))))
             (Some (PhoneNumbers.mk "+35312345678" "+3531987654321"
                      "+3531987654321" "+3531987654321"))))
    None (mkAuthenticator [] "").

(** A request whose header names one payer and whose Payer group names
    another. *)
Definition twoPayers : CardStorageRequest.t :=
  CardStorageRequest.mk (xml.mkName "" "") "" "" "" "internet" "ECOM"
    "order-1" "payer-A" "" ""
    (Some (Amount.mk "10000" "CAD")) None None
    (Some (Payer.mk "payer-B" "Retail" "Mr." "James" "Mason" "" "" "" "" ""
             "" "" "" None None))
    None (mkAuthenticator [] "").

(** The signature the test server declares, and a wrong one. *)
Definition goodHash : string := "77ac77956e57156f47142a5723835badf767e272".
Definition badHash : string := "INVALIDHASH".

(** A builder run against the test server. *)
Definition run (sha1hash : string) (op : Operation)
    (request : CardStorageRequest.t)
  : CardStorageRequest.t * outcome reply :=
  invoke URL_Parse http_NewRequest (xml_Decode sha1hash) marshal.escapeASCII
    Now op (CardStorage client) request.

(** The exchange the test server sees for a stamped request. *)
Definition httpRequestOf (stamped : CardStorageRequest.t) : http.Request.t :=
  http.Request.mk "POST"
    (url.mkURL "https" "test.realexpayments.com" DefaultPath)
    (Some (marshal.CardStorageRequest marshal.escapeASCII stamped))
    "application/xml".

Definition httpResponseOf (stamped : CardStorageRequest.t)
  : http.Response.t :=
  http.Response.mk 200 (httpRequestOf stamped) "".

(** Options of the tests: a base URL, and a hash secret. *)
Definition baseURL (path : string) (c : Client.t) : Client.t :=
  Client.mk (Client.HTTPClient c) (Some (url.mkURL "https" "testing.go" path))
    (Client.HashSecret c) (Client.RebateHashSecret c) (Client.MerchantID c)
    (Client.APIPath c) (Client.CardStorage c).

Definition hashSecret (secret : string) (c : Client.t) : Client.t :=
  Client.mk (Client.HTTPClient c) (Client.BaseURL c) secret
    (Client.RebateHashSecret c) (Client.MerchantID c) (Client.APIPath c)
    (Client.CardStorage c).

(** Every double quote of the expected documents is written as an
    apostrophe in this file. *)
Fixpoint quoted (s : string) : string :=
  match s with
  | EmptyString => EmptyString
  | String c rest =>
      String (if Ascii.eqb c "'"%char then "034"%char else c) (quoted rest)
  end.

End fixture.

(** ** Vocabulary of the further properties *)

(** The client with another HTTP client behind it. *)
Definition withHTTPClient
    (transport : http.Request.t -> result http.Response.t) (c : Client.t)
  : Client.t :=
  Client.mk transport (Client.BaseURL c) (Client.HashSecret c)
    (Client.RebateHashSecret c) (Client.MerchantID c) (Client.APIPath c)
    (Client.CardStorage c).

(** Two requests the caller filled alike: they agree on every field no
    builder assigns. *)
Definition sameCallerFields (r r' : CardStorageRequest.t) : Prop :=
  CardStorageRequest.XMLName r = CardStorageRequest.XMLName r'
  /\ CardStorageRequest.Account r = CardStorageRequest.Account r'
  /\ CardStorageRequest.Channel r = CardStorageRequest.Channel r'
  /\ CardStorageRequest.OrderID r = CardStorageRequest.OrderID r'
  /\ CardStorageRequest.PayerRef r = CardStorageRequest.PayerRef r'
  /\ CardStorageRequest.PaymentMethod r = CardStorageRequest.PaymentMethod r'
  /\ CardStorageRequest.Amount r = CardStorageRequest.Amount r'
  /\ CardStorageRequest.AutoSettle r = CardStorageRequest.AutoSettle r'
  /\ CardStorageRequest.PaymentData r = CardStorageRequest.PaymentData r'
  /\ CardStorageRequest.Payer r = CardStorageRequest.Payer r'
  /\ CardStorageRequest.Card r = CardStorageRequest.Card r'.

(** Two requests that agree on what the getters and the two header fields
    read for the hash. *)
Definition sameSignedFields (r r' : CardStorageRequest.t) : Prop :=
  CardStorageRequest.OrderID r = CardStorageRequest.OrderID r'
  /\ CardStorageRequest.PayerRef r = CardStorageRequest.PayerRef r'
  /\ CardStorageRequest.getAmount r = CardStorageRequest.getAmount r'
  /\ CardStorageRequest.getCurrency r = CardStorageRequest.getCurrency r'
  /\ CardStorageRequest.getPayerRef r = CardStorageRequest.getPayerRef r'
  /\ CardStorageRequest.getCardHolderName r
     = CardStorageRequest.getCardHolderName r'
  /\ CardStorageRequest.getCardNumber r = CardStorageRequest.getCardNumber r'
  /\ CardStorageRequest.getCardRef r = CardStorageRequest.getCardRef r'
  /\ CardStorageRequest.getCardExpDate r
     = CardStorageRequest.getCardExpDate r'.

(** An option that leaves the base URL of every client alone. *)
Definition keepsBaseURL (option : Client.t -> Client.t) : Prop :=
  forall c : Client.t, Client.BaseURL (option c) = Client.BaseURL c.

(** The writers of the authenticator tests. *)
Module mock.

(** [MockMarshaller]: it records the call and the bytes, accepts them, and
    sums to the bytes of Hello. *)
Record MockMarshaller : Type := mkMock {
  calls : list string;
  p : list byte }.

(** A writer that refuses every write. *)
Record FailingWriter : Type := mkFailing { reason : string }.

End mock.

#[export] Instance MockMarshaller_Marshaller : Marshaller mock.MockMarshaller
  := {
  Write m p := (mock.mkMock (mock.calls m ++ ["write"]) p, (1, None));
  Sum m b := bytes_of_string "Hello" }.

#[export] Instance FailingWriter_Marshaller : Marshaller mock.FailingWriter
  := {
  Write m p := (m, (0, Some (LibraryError (mock.reason m))));
  Sum m b := b }.

(** * Properties *)

(** ** The libraries agree with their published vectors *)

Example sha1_abc :
  hex.EncodeToString (sha1.SHA1 (bytes_of_string "abc"))
  = "a9993e364706816aba3e25717850c26c9cd0d89d".
Proof. vm_compute. reflexivity. Qed.

Example sha1_empty :
  hex.EncodeToString (sha1.SHA1 [])
  = "da39a3ee5e6b4b0d3255bfef95601890afd80709".
Proof. vm_compute. reflexivity. Qed.

Example sha1_two_blocks :
  hex.EncodeToString
    (sha1.SHA1 (bytes_of_string
       "abcdbcdecdefdefgefghfghighijhijkijkljklmklmnlmnomnopnopq"))
  = "84983e441c3bd26ebaae4aa1f95129e5e54670f1".
Proof. vm_compute. reflexivity. Qed.

(** ** The signature engine *)

Lemma EncodeToString_length (src : list byte) :
  String.length (hex.EncodeToString src) = (2 * List.length src)%nat.
Proof.
  induction src as [|v rest IH]; cbn [hex.EncodeToString String.length List.length].
  - reflexivity.
  - rewrite IH. lia.
Qed.

Lemma hexdigit_hi_lower (v : byte) :
  hex.is_lower_hex (hex.hexdigit (Z.shiftr (Z_of_byte v) 4)) = true.
Proof. destruct v; vm_compute; reflexivity. Qed.

Lemma hexdigit_lo_lower (v : byte) :
  hex.is_lower_hex (hex.hexdigit (Z.land (Z_of_byte v) 15)) = true.
Proof. destruct v; vm_compute; reflexivity. Qed.

Lemma EncodeToString_lower (src : list byte) :
  hex.all_chars hex.is_lower_hex (hex.EncodeToString src) = true.
Proof.
  induction src as [|v rest IH]; cbn [hex.EncodeToString hex.all_chars].
  - reflexivity.
  - rewrite hexdigit_hi_lower, hexdigit_lo_lower, IH. reflexivity.
Qed.

Lemma checkSum_length (d : sha1.digest) :
  List.length (sha1.checkSum d) = 20%nat.
Proof.
  unfold sha1.checkSum.
  set (d' := sha1.Write d _). clearbody d'.
  rewrite !length_app. reflexivity.
Qed.

Lemma hexSHA1_length (s : string) : String.length (hexSHA1 s) = 40%nat.
Proof.
  unfold hexSHA1, sha1.SHA1.
  rewrite EncodeToString_length, checkSum_length. reflexivity.
Qed.

Lemma hexSHA1_lower (s : string) :
  hex.all_chars hex.is_lower_hex (hexSHA1 s) = true.
Proof. apply EncodeToString_lower. Qed.

(** With a SHA-1 digest as the writer, [hashAndEncode] cannot fail. *)
Lemma hashAndEncode_sha1 (str : string) :
  hashAndEncode sha1.New str = Ok (hexSHA1 str).
Proof.
  unfold hashAndEncode, WriteString, hexSHA1, sha1.SHA1.
  cbn [Write Sum sha1_Marshaller].
  unfold sha1.Sum. rewrite app_nil_l. reflexivity.
Qed.

Lemma buildSignature_eq (authenticator : serviceAuthenticator) :
  buildSignature authenticator
  = Ok (computeChainedSignature (elementsToHash authenticator)
          (sharedSecret authenticator)).
Proof.
  unfold buildSignature.
  rewrite !hashAndEncode_sha1. reflexivity.
Qed.

(** C1: for every element list, the empty one included, and every secret,
    [buildSignature] returns without error the hex of the SHA-1 of (the hex
    of the SHA-1 of the elements joined with dots, then a dot, then the
    secret), and that string is forty lowercase hexadecimal characters. *)
Theorem C1_buildSignature_chained_hash :
  forall (elements : list string) (secret : string),
    buildSignature (mkAuthenticator elements secret)
    = Ok (computeChainedSignature elements secret)
    /\ String.length (computeChainedSignature elements secret) = 40%nat
    /\ hex.all_chars hex.is_lower_hex
         (computeChainedSignature elements secret) = true
    /\ strings.Join [] "." = ""
    /\ buildSignature (mkAuthenticator [] secret)
       = Ok (hexSHA1 (hexSHA1 "" ++ "." ++ secret)%string).
Proof.
  intros elements secret.
  split; [|split; [|split; [|split]]].
  - apply (buildSignature_eq (mkAuthenticator elements secret)).
  - apply hexSHA1_length.
  - apply hexSHA1_lower.
  - reflexivity.
  - apply (buildSignature_eq (mkAuthenticator [] secret)).
Qed.

(** C6: the elements elem1, elem2 with the secret test sign to
    dbd4aebd6ead0f3c2e56017aef55135c4efd3aba. *)
Theorem C6_known_vector :
  buildSignature (mkAuthenticator ["elem1"; "elem2"] "test")
  = Ok "dbd4aebd6ead0f3c2e56017aef55135c4efd3aba".
Proof. vm_compute. reflexivity. Qed.

(** C9: the signature is a function of the element list and the secret
    alone. Two authenticators that agree on both sign alike, whichever
    request or response they are embedded in; and signing a request again
    after its own signature was stored in it gives the same string. *)
Theorem C9_buildSignature_deterministic :
  forall (a1 a2 : serviceAuthenticator),
    elementsToHash a1 = elementsToHash a2 ->
    sharedSecret a1 = sharedSecret a2 ->
    buildSignature a1 = buildSignature a2
    /\ (forall (request : CardStorageRequest.t) (response : ServiceResponse.t),
          CardStorageRequest.authenticator request = a1 ->
          ServiceResponse.authenticator response = a2 ->
          buildSignature (CardStorageRequest.authenticator request)
          = buildSignature (ServiceResponse.authenticator response))
    /\ (forall (request : CardStorageRequest.t) (signature : string),
          CardStorageRequest.authenticator request = a1 ->
          buildSignature a1 = Ok signature ->
          buildSignature
            (CardStorageRequest.authenticator
               (CardStorageRequest.set_Sha1Hash signature request))
          = Ok signature).
Proof.
  intros a1 a2 Hel Hsec.
  assert (Hsame : buildSignature a1 = buildSignature a2).
  { rewrite !buildSignature_eq. rewrite Hel, Hsec. reflexivity. }
  split; [exact Hsame|]. split.
  - intros request response Hreq Hresp. rewrite Hreq, Hresp. exact Hsame.
  - intros request signature Hreq Hsig.
    unfold CardStorageRequest.set_Sha1Hash.
    cbn [CardStorageRequest.authenticator].
    rewrite Hreq. exact Hsig.
Qed.

Lemma C9_buildSignature_deterministic_witness :
  let a1 := mkAuthenticator ["elem1"; "elem2"] "test" in
  let a2 := mkAuthenticator ["elem1"; "elem2"] "test" in
  elementsToHash a1 = elementsToHash a2
  /\ sharedSecret a1 = sharedSecret a2
  /\ buildSignature a1 = buildSignature a2.
Proof.
  intros a1 a2.
  split; [reflexivity|]. split; [reflexivity|].
  exact (proj1 (C9_buildSignature_deterministic a1 a2 eq_refl eq_refl)).
Defined.

(** ** Strings, suffixes and timestamps *)

Lemma string_length_app (s1 s2 : string) :
  String.length (s1 ++ s2)%string
  = (String.length s1 + String.length s2)%nat.
Proof.
  induction s1 as [|c s1 IH]; cbn [String.append String.length].
  - reflexivity.
  - rewrite IH. reflexivity.
Qed.

Lemma all_chars_app (p : ascii -> bool) (s1 s2 : string) :
  hex.all_chars p (s1 ++ s2)%string
  = hex.all_chars p s1 && hex.all_chars p s2.
Proof.
  induction s1 as [|c s1 IH]; cbn [String.append hex.all_chars].
  - reflexivity.
  - rewrite IH. apply andb_assoc.
Qed.

Lemma digitsOfWidth_app (a b : nat) (s1 s2 : string) :
  digitsOfWidth a s1 = true ->
  digitsOfWidth b s2 = true ->
  digitsOfWidth (a + b) (s1 ++ s2)%string = true.
Proof.
  unfold digitsOfWidth. intros H1 H2.
  apply andb_prop in H1 as [L1 D1]. apply andb_prop in H2 as [L2 D2].
  apply Nat.eqb_eq in L1, L2.
  rewrite string_length_app, all_chars_app, L1, L2, D1, D2, Nat.eqb_refl.
  reflexivity.
Qed.

(** [appendInt] writes exactly [width] digits as long as the number has no
    more digits than that and is not negative: checked on every such
    number. *)
Lemma appendInt_width (width : nat) (bound : Z) :
  forallb (fun n => digitsOfWidth width (time.appendInt (Z.of_nat n) width))
    (seq 0 (Z.to_nat bound)) = true ->
  forall x : Z, 0 <= x < bound ->
    digitsOfWidth width (time.appendInt x width) = true.
Proof.
  intros Hall x Hx.
  rewrite forallb_forall in Hall.
  replace x with (Z.of_nat (Z.to_nat x)) by lia.
  apply Hall. apply in_seq. lia.
Qed.

Lemma appendInt_4 (x : Z) :
  0 <= x <= 9999 -> digitsOfWidth 4 (time.appendInt x 4) = true.
Proof.
  intros Hx. apply (appendInt_width 4 10000); [vm_compute; reflexivity|lia].
Qed.

Lemma appendInt_2 (x : Z) :
  0 <= x <= 99 -> digitsOfWidth 2 (time.appendInt x 2) = true.
Proof.
  intros Hx. apply (appendInt_width 2 100); [vm_compute; reflexivity|lia].
Qed.

Lemma Format_compact (t : time.Time) :
  time.Format t "20060102150405"
  = (time.appendInt (time.Year t) 4 ++ time.appendInt (time.Month t) 2
     ++ time.appendInt (time.Day t) 2 ++ time.appendInt (time.Hour t) 2
     ++ time.appendInt (time.Minute t) 2
     ++ time.appendInt (time.Second t) 2 ++ "")%string.
Proof. reflexivity. Qed.

Lemma Format_compact_14_digits (t : time.Time) :
  fourDigitYear t ->
  digitsOfWidth 14 (formatTime t "20060102150405") = true.
Proof.
  intros (HY & HM & HD & Hh & Hm & Hs).
  unfold formatTime. cbn [Format Time_TimeFormatter].
  rewrite Format_compact.
  apply (digitsOfWidth_app 4 10); [apply appendInt_4; lia|].
  apply (digitsOfWidth_app 2 8); [apply appendInt_2; lia|].
  apply (digitsOfWidth_app 2 6); [apply appendInt_2; lia|].
  apply (digitsOfWidth_app 2 4); [apply appendInt_2; lia|].
  apply (digitsOfWidth_app 2 2); [apply appendInt_2; lia|].
  apply (digitsOfWidth_app 2 0); [apply appendInt_2; lia|reflexivity].
Qed.

Lemma HasSuffix_slash_cons (c : ascii) (s : string) :
  s <> EmptyString ->
  strings.HasSuffix (String c s) "/" = strings.HasSuffix s "/".
Proof.
  destruct s as [|c' s']; [congruence|]. intros _.
  unfold strings.HasSuffix.
  cbn [String.length Nat.leb andb Nat.sub].
  rewrite !Nat.sub_0_r.
  cbn [substring]. destruct (String.length s'); reflexivity.
Qed.

Lemma HasSuffix_slash (s : string) :
  strings.HasSuffix s "/" = true <-> endsWithSlash s.
Proof.
  unfold endsWithSlash.
  induction s as [|c s IH].
  - split; [discriminate|]. intros [[|c p] Hp]; discriminate.
  - destruct s as [|c' s'].
    + unfold strings.HasSuffix. cbn. split.
      * intros E. destruct (Ascii.eqb c "/") eqn:Ec; [|discriminate].
        apply Ascii.eqb_eq in Ec. subst c. exists ""%string. reflexivity.
      * intros [[|c0 [|c1 p]] Hp]; cbn in Hp; try discriminate.
        injection Hp as ->. reflexivity.
    + rewrite HasSuffix_slash_cons by discriminate.
      rewrite IH. split.
      * intros [p Hp]. exists (String c p). cbn. rewrite Hp. reflexivity.
      * intros [[|c0 p] Hp]; cbn in Hp; [discriminate|].
        injection Hp as _ Hp. exists p. exact Hp.
Qed.

Lemma fold_left_applyOptions (options : list (Client.t -> Client.t))
    (c : Client.t) :
  fold_left (fun c option => option c) options c = applyOptions options c.
Proof.
  revert c. induction options as [|option rest IH]; intros c; cbn.
  - reflexivity.
  - apply IH.
Qed.

Lemma applyOptions_app (first rest : list (Client.t -> Client.t))
    (c : Client.t) :
  applyOptions (first ++ rest) c = applyOptions rest (applyOptions first c).
Proof.
  revert c. induction first as [|option first IH]; intros c; cbn.
  - reflexivity.
  - apply IH.
Qed.

(** ** The builders *)

(** Projections and assignments of a request reduce by computation; the
    hash never does. *)
Ltac request_simpl :=
  cbn [fst snd
       CardStorageRequest.XMLName CardStorageRequest.Type_
       CardStorageRequest.Timestamp CardStorageRequest.MerchantID
       CardStorageRequest.Account CardStorageRequest.Channel
       CardStorageRequest.OrderID CardStorageRequest.PayerRef
       CardStorageRequest.PaymentMethod CardStorageRequest.Sha1Hash
       CardStorageRequest.Amount CardStorageRequest.AutoSettle
       CardStorageRequest.PaymentData CardStorageRequest.Payer
       CardStorageRequest.Card CardStorageRequest.authenticator
       CardStorageRequest.set_Type CardStorageRequest.set_Timestamp
       CardStorageRequest.set_MerchantID CardStorageRequest.set_Sha1Hash
       CardStorageRequest.set_authenticator
       CardStorageRequest.set_elementsToHash
       CardStorageRequest.set_sharedSecret
       CardStorageRequest.getPayerRef CardStorageRequest.getAmount
       CardStorageRequest.getCurrency CardStorageRequest.getCardHolderName
       CardStorageRequest.getCardNumber CardStorageRequest.getCardRef
       CardStorageRequest.getCardExpDate
       elementsToHash sharedSecret] in *.

(** Run the builder of [op] on [request], splitting on the Amount group
    where Authorize reads it. *)
Ltac run_builder op request :=
  destruct op;
  unfold invoke, Authorize, Validate, Credit, CreateCustomer, EditCustomer,
    StoreCard, EditCard, DeleteCard;
  unfold CardStorageRequest.getPayerRef, CardStorageRequest.getAmount,
    CardStorageRequest.getCurrency, CardStorageRequest.getCardHolderName,
    CardStorageRequest.getCardNumber, CardStorageRequest.getCardRef,
    CardStorageRequest.getCardExpDate;
  request_simpl;
  try (destruct (CardStorageRequest.Amount request) eqn:?);
  rewrite ?buildSignature_eq;
  request_simpl.

(** ** The transmission pipeline and the response validator *)

Lemma validateResponseHash_eq (response : ServiceResponse.t)
    (httpResponse : http.Response.t) :
  ServiceResponse.validateResponseHash response httpResponse
  = if String.eqb
         (computeChainedSignature
            (elementsToHash (ServiceResponse.authenticator response))
            (sharedSecret (ServiceResponse.authenticator response)))
         (ServiceResponse.Sha1Hash response)
    then None
    else Some (ValidationError httpResponse).
Proof.
  unfold ServiceResponse.validateResponseHash.
  rewrite buildSignature_eq. reflexivity.
Qed.

Lemma set_context (client_ : Client.t) (response : ServiceResponse.t) :
  ServiceResponse.set_sharedSecret (Client.HashSecret client_)
    (ServiceResponse.set_elementsToHash
       [ServiceResponse.Timestamp response;
        ServiceResponse.MerchantID response;
        ServiceResponse.OrderID response;
        ServiceResponse.Result response;
        ServiceResponse.Message response;
        ServiceResponse.PasRef response;
        ServiceResponse.AuthCode response] response)
  = ServiceResponse.set_authenticator (responseContext client_ response)
      response.
Proof. reflexivity. Qed.

Section PipelineFacts.

Variable URL_Parse : url.URL -> string -> result url.URL.
Variable http_NewRequest :
  string -> url.URL -> option string -> result http.Request.t.
Variable xml_Decode : string -> result ServiceResponse.t.
Variable EscapeString : string -> string.
Context {T : Type} `{TimeFormatter T}.
Variable Now : unit -> T.

Local Abbreviation NewRequest' := (NewRequest URL_Parse http_NewRequest).
Local Abbreviation Do' := (Do xml_Decode).
Local Abbreviation transmitRequest' :=
  (transmitRequest URL_Parse http_NewRequest xml_Decode).
Local Abbreviation invoke' :=
  (invoke URL_Parse http_NewRequest xml_Decode EscapeString Now).

(** Once the request was built and the exchange decoded, the pipeline is
    the comparison of the declared signature with the one recomputed over
    [responseContext]. *)
Lemma transmitRequest_decoded {A : Type} (encode : A -> result string)
    (transmitter : service) (request : A) (httpRequest : http.Request.t)
    (httpResponse : http.Response.t) (decoded : ServiceResponse.t) :
  NewRequest' encode (client transmitter) "POST" (Path transmitter)
    (Some request) = Returned (Ok httpRequest) ->
  Do' (client transmitter) httpRequest = Ok (httpResponse, decoded) ->
  transmitRequest' encode transmitter request
  = Returned
      (if String.eqb
            (computeChainedSignature
               (elementsToHash (responseContext (client transmitter) decoded))
               (sharedSecret (responseContext (client transmitter) decoded)))
            (ServiceResponse.Sha1Hash decoded)
       then (Some (ServiceResponse.set_authenticator
                     (responseContext (client transmitter) decoded) decoded),
             Some httpResponse, None)
       else (None, Some httpResponse, Some (ValidationError httpResponse))).
Proof.
  intros Hnew Hdo.
  unfold transmitRequest. rewrite Hnew, Hdo.
  rewrite set_context, validateResponseHash_eq.
  cbn [ServiceResponse.set_authenticator ServiceResponse.authenticator
       ServiceResponse.Sha1Hash].
  destruct (String.eqb _ _); reflexivity.
Qed.

(** A response that [transmitRequest] returns carries [responseContext]. *)
Lemma transmitRequest_returned_context {A : Type}
    (encode : A -> result string) (transmitter : service) (request : A)
    (response : ServiceResponse.t) (httpResponse : option http.Response.t)
    (err : option error) :
  transmitRequest' encode transmitter request
  = Returned (Some response, httpResponse, err) ->
  ServiceResponse.authenticator response
  = responseContext (client transmitter) response.
Proof.
  unfold transmitRequest.
  destruct (NewRequest' encode (client transmitter) "POST" (Path transmitter)
              (Some request)) as [[httpRequest|e]|]; try discriminate.
  destruct (Do' (client transmitter) httpRequest) as [[hr decoded]|e];
    try discriminate.
  rewrite set_context, validateResponseHash_eq.
  cbn [ServiceResponse.set_authenticator ServiceResponse.authenticator
       ServiceResponse.Sha1Hash].
  destruct (String.eqb _ _); try discriminate.
  intros Heq. injection Heq as Hresp _ _. subst response. reflexivity.
Qed.

(** A builder that gets past the element list signs it without error and
    ends in [transmitRequest] on the request it stamped. Only Authorize can
    stop before: it reads the Amount group through the pointer. *)
Lemma invoke_transmits (op : Operation) (cardStorage : service)
    (request : CardStorageRequest.t) :
  (op = OpAuthorize -> CardStorageRequest.Amount request <> None) ->
  snd (invoke' op cardStorage request)
  = transmitRequest' (encodeRequest EscapeString) cardStorage
      (fst (invoke' op cardStorage request)).
Proof.
  intros Hamount.
  destruct op; unfold invoke, Authorize, Validate, Credit, CreateCustomer,
    EditCustomer, StoreCard, EditCard, DeleteCard;
    try (cbn [CardStorageRequest.Amount CardStorageRequest.set_Type
              CardStorageRequest.set_MerchantID
              CardStorageRequest.set_Timestamp];
         destruct (CardStorageRequest.Amount request) eqn:E;
         [|exfalso; apply (Hamount eq_refl); reflexivity]);
    rewrite buildSignature_eq; reflexivity.
Qed.


(** C5: when the response decodes but its declared sha1hash differs from
    the recomputed signature, [transmitRequest] returns no domain response,
    the raw HTTP response, and a [ValidationError] whose message spells the
    method, the URL path and the status code of the exchange; when both
    signatures are equal it returns the decoded response, the HTTP
    response and no error. *)
Theorem C5_transmitRequest_integrity {A : Type} (encode : A -> result string)
    (transmitter : service) (request : A) (httpRequest : http.Request.t)
    (httpResponse : http.Response.t) (decoded : ServiceResponse.t) :
  NewRequest' encode (client transmitter) "POST" (Path transmitter)
    (Some request) = Returned (Ok httpRequest) ->
  Do' (client transmitter) httpRequest = Ok (httpResponse, decoded) ->
  let recomputed :=
    computeChainedSignature
      [ServiceResponse.Timestamp decoded; ServiceResponse.MerchantID decoded;
       ServiceResponse.OrderID decoded; ServiceResponse.Result decoded;
       ServiceResponse.Message decoded; ServiceResponse.PasRef decoded;
       ServiceResponse.AuthCode decoded]
      (Client.HashSecret (client transmitter)) in
  (ServiceResponse.Sha1Hash decoded <> recomputed ->
   transmitRequest' encode transmitter request
   = Returned (None, Some httpResponse, Some (ValidationError httpResponse))
   /\ ValidationError_Error httpResponse
      = ("Validation Hash Error: method: "
         ++ http.Request.Method (http.Response.Request httpResponse)
         ++ ", path: "
         ++ url.Path (http.Request.URL (http.Response.Request httpResponse))
         ++ ", status code:"
         ++ itoa (http.Response.StatusCode httpResponse))%string)
  /\ (ServiceResponse.Sha1Hash decoded = recomputed ->
      transmitRequest' encode transmitter request
      = Returned
          (Some (ServiceResponse.set_authenticator
                   (responseContext (client transmitter) decoded) decoded),
           Some httpResponse, None)).
Proof.
  intros Hnew Hdo recomputed.
  rewrite (transmitRequest_decoded encode transmitter request httpRequest
             httpResponse decoded Hnew Hdo).
  cbn [responseContext elementsToHash sharedSecret]. fold recomputed.
  split.
  - intros Hneq. split; [|reflexivity].
    destruct (String.eqb recomputed (ServiceResponse.Sha1Hash decoded)) eqn:E.
    + apply String.eqb_eq in E. congruence.
    + reflexivity.
  - intros Heq. rewrite Heq, String.eqb_refl. reflexivity.
Qed.

(** C3: whichever operation produced it, a decoded response is validated
    against the context made of its timestamp, merchant id, order id,
    result, message, pasref and auth code, in that order, with the client's
    ordinary secret; the response's own sha1hash and the rebate secret have
    no part in that context. *)
Theorem C3_response_context (op : Operation) (cardStorage : service)
    (request : CardStorageRequest.t) (httpRequest : http.Request.t)
    (httpResponse : http.Response.t) (decoded : ServiceResponse.t) :
  (op = OpAuthorize -> CardStorageRequest.Amount request <> None) ->
  NewRequest' (encodeRequest EscapeString) (client cardStorage) "POST"
    (Path cardStorage) (Some (fst (invoke' op cardStorage request)))
  = Returned (Ok httpRequest) ->
  Do' (client cardStorage) httpRequest = Ok (httpResponse, decoded) ->
  let context := responseContext (client cardStorage) decoded in
  elementsToHash context
  = [ServiceResponse.Timestamp decoded; ServiceResponse.MerchantID decoded;
     ServiceResponse.OrderID decoded; ServiceResponse.Result decoded;
     ServiceResponse.Message decoded; ServiceResponse.PasRef decoded;
     ServiceResponse.AuthCode decoded]
  /\ sharedSecret context = Client.HashSecret (client cardStorage)
  /\ snd (invoke' op cardStorage request)
     = Returned
         (if String.eqb
               (computeChainedSignature (elementsToHash context)
                  (sharedSecret context))
               (ServiceResponse.Sha1Hash decoded)
          then (Some (ServiceResponse.set_authenticator context decoded),
                Some httpResponse, None)
          else (None, Some httpResponse,
                Some (ValidationError httpResponse)))
  /\ (forall other : ServiceResponse.t,
        ServiceResponse.Timestamp other = ServiceResponse.Timestamp decoded ->
        ServiceResponse.MerchantID other
        = ServiceResponse.MerchantID decoded ->
        ServiceResponse.OrderID other = ServiceResponse.OrderID decoded ->
        ServiceResponse.Result other = ServiceResponse.Result decoded ->
        ServiceResponse.Message other = ServiceResponse.Message decoded ->
        ServiceResponse.PasRef other = ServiceResponse.PasRef decoded ->
        ServiceResponse.AuthCode other = ServiceResponse.AuthCode decoded ->
        responseContext (client cardStorage) other = context)
  /\ (forall other : Client.t,
        Client.HashSecret other = Client.HashSecret (client cardStorage) ->
        responseContext other decoded = context).
Proof.
  intros Hamount Hnew Hdo context.
  split; [reflexivity|]. split; [reflexivity|]. split; [|split].
  - rewrite (invoke_transmits op cardStorage request Hamount).
    apply (transmitRequest_decoded (encodeRequest EscapeString) cardStorage
             _ httpRequest httpResponse decoded Hnew Hdo).
  - intros other Ht Hm Ho Hr Hmsg Hp Ha.
    unfold context, responseContext.
    rewrite Ht, Hm, Ho, Hr, Hmsg, Hp, Ha. reflexivity.
  - intros other Hs. unfold context, responseContext.
    rewrite Hs. reflexivity.
Qed.

(** What every builder stamps on the request. *)
Lemma invoke_stamps (op : Operation) (cardStorage : service)
    (request : CardStorageRequest.t) :
  let stamped := fst (invoke' op cardStorage request) in
  CardStorageRequest.Type_ stamped = typeCode op
  /\ CardStorageRequest.Timestamp stamped
     = formatTime (Now tt) "20060102150405"
  /\ CardStorageRequest.MerchantID stamped
     = Client.MerchantID (client cardStorage).
Proof.
  run_builder op request; repeat split; reflexivity.
Qed.

(** What no builder touches. *)
Lemma invoke_frame (op : Operation) (cardStorage : service)
    (request : CardStorageRequest.t) :
  let stamped := fst (invoke' op cardStorage request) in
  CardStorageRequest.XMLName stamped = CardStorageRequest.XMLName request
  /\ CardStorageRequest.Account stamped = CardStorageRequest.Account request
  /\ CardStorageRequest.Channel stamped = CardStorageRequest.Channel request
  /\ CardStorageRequest.OrderID stamped = CardStorageRequest.OrderID request
  /\ CardStorageRequest.PayerRef stamped
     = CardStorageRequest.PayerRef request
  /\ CardStorageRequest.PaymentMethod stamped
     = CardStorageRequest.PaymentMethod request
  /\ CardStorageRequest.Amount stamped = CardStorageRequest.Amount request
  /\ CardStorageRequest.AutoSettle stamped
     = CardStorageRequest.AutoSettle request
  /\ CardStorageRequest.PaymentData stamped
     = CardStorageRequest.PaymentData request
  /\ CardStorageRequest.Payer stamped = CardStorageRequest.Payer request
  /\ CardStorageRequest.Card stamped = CardStorageRequest.Card request.
Proof.
  run_builder op request; repeat split; try reflexivity; congruence.
Qed.

(** The context a builder signs, and the signature it stores. *)
Lemma invoke_context (op : Operation) (cardStorage : service)
    (request : CardStorageRequest.t) :
  (op = OpAuthorize -> CardStorageRequest.Amount request <> None) ->
  let stamped := fst (invoke' op cardStorage request) in
  CardStorageRequest.authenticator stamped
  = rowContext (builderTable op) (client cardStorage) stamped
  /\ CardStorageRequest.Sha1Hash stamped
     = computeChainedSignature
         (elementsToHash (CardStorageRequest.authenticator stamped))
         (sharedSecret (CardStorageRequest.authenticator stamped)).
Proof.
  intros Hamount.
  run_builder op request;
    try (exfalso; apply (Hamount eq_refl); reflexivity);
    unfold rowContext; cbn [builderTable table fst snd map fieldValue
                            secretValue];
    request_simpl;
    try match goal with E : CardStorageRequest.Amount request = _ |- _ =>
          rewrite E end;
    split; reflexivity.
Qed.

(** C7: every builder sets the type attribute to its own literal code,
    the eight codes being pairwise distinct and Credit's being payment-out;
    it sets the timestamp to the clock's current time in layout
    20060102150405, which for a calendar time with a year of at most four
    digits is a string of fourteen decimal digits; it sets the merchant id
    to the client's; and the signature it stores is computed over these
    stamped values. *)
Theorem C7_builders_stamp_common_fields (op : Operation)
    (cardStorage : service) (request : CardStorageRequest.t) :
  let stamped := fst (invoke' op cardStorage request) in
  CardStorageRequest.Type_ stamped = typeCode op
  /\ (forall op' : Operation, typeCode op = typeCode op' -> op = op')
  /\ typeCode OpCredit = "payment-out"
  /\ CardStorageRequest.Timestamp stamped
     = formatTime (Now tt) "20060102150405"
  /\ CardStorageRequest.MerchantID stamped
     = Client.MerchantID (client cardStorage)
  /\ ((op = OpAuthorize -> CardStorageRequest.Amount request <> None) ->
      exists rest : list string,
        elementsToHash (CardStorageRequest.authenticator stamped)
        = formatTime (Now tt) "20060102150405"
          :: Client.MerchantID (client cardStorage) :: rest
        /\ CardStorageRequest.Sha1Hash stamped
           = computeChainedSignature
               (formatTime (Now tt) "20060102150405"
                :: Client.MerchantID (client cardStorage) :: rest)
               (sharedSecret (CardStorageRequest.authenticator stamped)))
  /\ (forall t : time.Time,
        fourDigitYear t ->
        digitsOfWidth 14 (formatTime t "20060102150405") = true).
Proof.
  intros stamped.
  destruct (invoke_stamps op cardStorage request) as (Hty & Hts & Hm).
  split; [exact Hty|]. split.
  { intros op' E. destruct op, op'; first [reflexivity | discriminate E]. }
  split; [reflexivity|]. split; [exact Hts|]. split; [exact Hm|]. split.
  - intros Hamount.
    destruct (invoke_context op cardStorage request Hamount) as [Hctx Hsig].
    fold stamped in Hctx, Hsig, Hts, Hm.
    rewrite Hsig, Hctx. unfold rowContext. cbn [elementsToHash sharedSecret].
    destruct op; cbn [builderTable table fst map fieldValue];
      rewrite Hts, Hm; eexists; split; reflexivity.
  - exact Format_compact_14_digits.
Qed.

(** C10: a builder leaves every field of the request other than Type,
    Timestamp, MerchantID, Sha1Hash and the embedded signing context as
    the caller set it, and the wire document of a request does not change
    with its signing context. *)
Theorem C10_builders_frame (op : Operation) (cardStorage : service)
    (request : CardStorageRequest.t) :
  let stamped := fst (invoke' op cardStorage request) in
  (CardStorageRequest.XMLName stamped = CardStorageRequest.XMLName request
   /\ CardStorageRequest.Account stamped = CardStorageRequest.Account request
   /\ CardStorageRequest.Channel stamped = CardStorageRequest.Channel request
   /\ CardStorageRequest.OrderID stamped = CardStorageRequest.OrderID request
   /\ CardStorageRequest.PayerRef stamped
      = CardStorageRequest.PayerRef request
   /\ CardStorageRequest.PaymentMethod stamped
      = CardStorageRequest.PaymentMethod request
   /\ CardStorageRequest.Amount stamped = CardStorageRequest.Amount request
   /\ CardStorageRequest.AutoSettle stamped
      = CardStorageRequest.AutoSettle request
   /\ CardStorageRequest.PaymentData stamped
      = CardStorageRequest.PaymentData request
   /\ CardStorageRequest.Payer stamped = CardStorageRequest.Payer request
   /\ CardStorageRequest.Card stamped = CardStorageRequest.Card request)
  /\ (forall context : serviceAuthenticator,
        encodeRequest EscapeString
          (CardStorageRequest.set_authenticator context stamped)
        = encodeRequest EscapeString stamped)
  /\ (forall (r : CardStorageRequest.t) (elements : list string)
             (secret : string),
        marshal.CardStorageRequest EscapeString
          (CardStorageRequest.set_sharedSecret secret
             (CardStorageRequest.set_elementsToHash elements r))
        = marshal.CardStorageRequest EscapeString r).
Proof.
  intros stamped. split; [apply invoke_frame|]. split.
  - intros context. reflexivity.
  - intros r elements secret. reflexivity.
Qed.

(** C2, amended: every builder signs the row of section 4.2 for its
    operation, with the rebate secret for Credit and the ordinary secret
    otherwise, except that the last element CreateCustomer signs is the
    reference of the Payer group (empty when the group is absent), not the
    payer reference of the request header; for Authorize this is stated
    for requests that have an Amount group. *)
Theorem C2_builders_sign_their_row (op : Operation) (cardStorage : service)
    (request : CardStorageRequest.t) :
  (op = OpAuthorize -> CardStorageRequest.Amount request <> None) ->
  let stamped := fst (invoke' op cardStorage request) in
  CardStorageRequest.authenticator stamped
  = rowContext (builderTable op) (client cardStorage) stamped
  /\ (op <> OpCreateCustomer -> builderTable op = table op)
  /\ builderTable OpCreateCustomer
     = ([timestamp; merchantId; orderId; amount; currency; payerGroupRef],
        ordinary)
  /\ snd (builderTable op)
     = match op with OpCredit => rebate | _ => ordinary end
  /\ CardStorageRequest.Sha1Hash stamped
     = computeChainedSignature
         (map (fieldValue stamped) (fst (builderTable op)))
         (secretValue (client cardStorage) (snd (builderTable op))).
Proof.
  intros Hamount stamped.
  destruct (invoke_context op cardStorage request Hamount) as [Hctx Hsig].
  fold stamped in Hctx, Hsig.
  split; [exact Hctx|]. split.
  { intros Hop. destruct op; first [reflexivity | congruence]. }
  split; [reflexivity|]. split.
  { destruct op; reflexivity. }
  rewrite Hsig, Hctx. reflexivity.
Qed.

(** The part of the null-coercion rule the builders keep: apart from
    Authorize, a builder signs a request without Amount, Payer or Card
    group exactly as it signs the request with these groups present and
    empty. *)
Lemma null_coercion_siblings (op : Operation) (cardStorage : service)
    (request : CardStorageRequest.t) :
  op <> OpAuthorize ->
  CardStorageRequest.authenticator (fst (invoke' op cardStorage request))
  = CardStorageRequest.authenticator
      (fst (invoke' op cardStorage (withEmptyGroups request)))
  /\ CardStorageRequest.Sha1Hash (fst (invoke' op cardStorage request))
     = CardStorageRequest.Sha1Hash
         (fst (invoke' op cardStorage (withEmptyGroups request))).
Proof.
  intros Hop.
  assert (H1 : op = OpAuthorize -> CardStorageRequest.Amount request <> None)
    by congruence.
  assert (H2 : op = OpAuthorize ->
               CardStorageRequest.Amount (withEmptyGroups request) <> None)
    by congruence.
  destruct (invoke_context op cardStorage request H1) as [C1 S1].
  destruct (invoke_context op cardStorage (withEmptyGroups request) H2)
    as [C2 S2].
  destruct (invoke_stamps op cardStorage request) as (_ & T1 & M1).
  destruct (invoke_stamps op cardStorage (withEmptyGroups request))
    as (_ & T2 & M2).
  destruct (invoke_frame op cardStorage request)
    as (_ & _ & _ & O1 & P1 & _ & A1 & _ & _ & Y1 & K1).
  destruct (invoke_frame op cardStorage (withEmptyGroups request))
    as (_ & _ & _ & O2 & P2 & _ & A2 & _ & _ & Y2 & K2).
  cbv zeta in *.
  assert (E : rowContext (builderTable op) (client cardStorage)
                (fst (invoke' op cardStorage request))
              = rowContext (builderTable op) (client cardStorage)
                  (fst (invoke' op cardStorage (withEmptyGroups request)))).
  { unfold rowContext.
    destruct op; try congruence;
      cbn [builderTable table fst snd map fieldValue];
      rewrite ?T1, ?T2, ?M1, ?M2, ?O1, ?O2, ?P1, ?P2, ?A1, ?A2, ?Y1, ?Y2,
        ?K1, ?K2;
      cbn [withEmptyGroups CardStorageRequest.OrderID
           CardStorageRequest.PayerRef CardStorageRequest.Amount
           CardStorageRequest.Payer CardStorageRequest.Card];
      destruct (CardStorageRequest.Amount request),
        (CardStorageRequest.Payer request),
        (CardStorageRequest.Card request); reflexivity. }
  split.
  - rewrite C1, C2. exact E.
  - rewrite S1, S2, C1, C2, E. reflexivity.
Qed.

End PipelineFacts.

(** ** The constructor *)

Lemma NewClient_eq (transport : http.Request.t -> result http.Response.t)
    (options : list (Client.t -> Client.t)) :
  NewClient transport options
  = match Client.BaseURL (applyOptions options (defaultClient transport)) with
    | None => Panicked
    | Some u =>
        if strings.HasSuffix (url.Path u) "/"
        then Returned (Err (TrailingSlashError u))
        else Returned (Ok (applyOptions options (defaultClient transport)))
    end.
Proof.
  unfold NewClient. rewrite fold_left_applyOptions. reflexivity.
Qed.

(** C8: [NewClient] installs the defaults, applies the options in the
    order given, and then validates: it returns an error exactly when the
    path of the resulting base URL ends with a slash, it succeeds with the
    configured client whenever that path does not, the defaults succeed,
    and every client it returns has already passed the check. *)
Theorem C8_NewClient_validates_after_options
    (transport : http.Request.t -> result http.Response.t)
    (options : list (Client.t -> Client.t)) :
  let configured := applyOptions options (defaultClient transport) in
  ((exists err : error, NewClient transport options = Returned (Err err))
   <-> (exists u : url.URL,
          Client.BaseURL configured = Some u /\ endsWithSlash (url.Path u)))
  /\ (forall u : url.URL,
        Client.BaseURL configured = Some u ->
        ~ endsWithSlash (url.Path u) ->
        NewClient transport options = Returned (Ok configured))
  /\ (forall c : Client.t,
        NewClient transport options = Returned (Ok c) ->
        c = configured
        /\ exists u : url.URL,
             Client.BaseURL c = Some u /\ ~ endsWithSlash (url.Path u))
  /\ NewClient transport [] = Returned (Ok (defaultClient transport))
  /\ (forall last : Client.t -> Client.t,
        applyOptions (options ++ [last]) (defaultClient transport)
        = last configured).
Proof.
  intros configured.
  rewrite NewClient_eq. fold configured.
  split; [|split; [|split; [|split]]].
  - destruct (Client.BaseURL configured) as [u|].
    + destruct (strings.HasSuffix (url.Path u) "/") eqn:E.
      * split.
        -- intros _. exists u. split; [reflexivity|].
           apply HasSuffix_slash. exact E.
        -- intros _. exists (TrailingSlashError u). reflexivity.
      * split.
        -- intros [err Herr]. discriminate Herr.
        -- intros [u' [Hu Hs]]. injection Hu as <-.
           apply HasSuffix_slash in Hs. congruence.
    + split.
      * intros [err Herr]. discriminate Herr.
      * intros [u [Hu _]]. discriminate Hu.
  - intros u Hu Hs. rewrite Hu.
    destruct (strings.HasSuffix (url.Path u) "/") eqn:E.
    + exfalso. apply Hs. apply HasSuffix_slash. exact E.
    + reflexivity.
  - intros c Hc.
    destruct (Client.BaseURL configured) as [u|] eqn:Hu; [|discriminate Hc].
    destruct (strings.HasSuffix (url.Path u) "/") eqn:E; [discriminate Hc|].
    injection Hc as <-. split; [reflexivity|].
    exists u. split; [exact Hu|].
    intros Hs. apply HasSuffix_slash in Hs. congruence.
  - reflexivity.
  - intros last. unfold configured. rewrite applyOptions_app. reflexivity.
Qed.

(** ** The request builders on the fixtures *)

Example Authorize_golden_document :
  marshal.CardStorageRequest marshal.escapeASCII
    (fst (fixture.run fixture.goodHash OpAuthorize
            (fixture.authRequest (Some (Amount.mk "10000" "CAD")))))
  = fixture.quoted
      ("<request type='receipt-in' timestamp='20180614095000'>"
       ++ "<merchantid>realexsandbox</merchantid><account>internet</account>"
       ++ "<channel>ECOM</channel><orderid>AiCibJ5UR7utURy_slxhJw</orderid>"
       ++ "<payerref>03e28f0e-492e-80bd-20ec318e9334</payerref>"
       ++ "<paymentmethod>3c4af936-483e-a393-f558bec2fb2a</paymentmethod>"
       ++ "<sha1hash>59a88d763f26bdcbbf4dd65d3b0aec0b1dd5f6f6</sha1hash>"
       ++ "<amount currency='CAD'>10000</amount>"
       ++ "<autosettle flag='1'></autosettle>"
       ++ "<paymentdata><cvn><number>123</number></cvn></paymentdata>"
       ++ "</request>")%string.
Proof. vm_compute. reflexivity. Qed.

(** The signature the CreateCustomer test expects is the one over the
    reference of the Payer group. *)
Example CreateCustomer_golden_signature :
  CardStorageRequest.Sha1Hash
    (fst (fixture.run fixture.goodHash OpCreateCustomer
            fixture.createCustomerRequest))
  = "59a88d763f26bdcbbf4dd65d3b0aec0b1dd5f6f6"
  /\ computeChainedSignature
       ["20180614095000"; "realexsandbox"; "AiCibJ5UR7utURy_slxhJw"; "10000";
        "CAD"; "03e28f0e-492e-80bd-20ec318e9334"] DefaultHashSecret
     = "59a88d763f26bdcbbf4dd65d3b0aec0b1dd5f6f6".
Proof. split; vm_compute; reflexivity. Qed.

Example CreateCustomer_golden_document :
  marshal.CardStorageRequest marshal.escapeASCII
    (fst (fixture.run fixture.goodHash OpCreateCustomer
            fixture.createCustomerRequest))
  = fixture.quoted
      ("<request type='payer-new' timestamp='20180614095000'>"
       ++ "<merchantid>realexsandbox</merchantid><account>internet</account>"
       ++ "<channel>ECOM</channel><orderid>AiCibJ5UR7utURy_slxhJw</orderid>"
       ++ "<payerref></payerref>"
       ++ "<paymentmethod>3c4af936-483e-a393-f558bec2fb2a</paymentmethod>"
       ++ "<sha1hash>59a88d763f26bdcbbf4dd65d3b0aec0b1dd5f6f6</sha1hash>"
       ++ "<amount currency='CAD'>10000</amount>"
       ++ "<autosettle flag='1'></autosettle>"
       ++ "<paymentdata><cvn><number>123</number></cvn></paymentdata>"
       ++ "<payer ref='03e28f0e-492e-80bd-20ec318e9334' type='Retail' "
       ++ "title='Mr.'><firstname>James</firstname><surname>Mason</surname>"
       ++ "<company>Global Payments</company><email>text@mail.com</email>"
       ++ "<dateofbirth>19851222</dateofbirth><state>yorkshire</state>"
       ++ "<passphrase>montgomery</passphrase><vatnumber>gb 1234</vatnumber>"
       ++ "<varref>Car Part</varref><custnum>E8953893489</custnum>"
       ++ "<address><line1>Flat 123</line1><line2>House 123</line2>"
       ++ "<line3>Cul-de-sac</line3><city>Halifax</city>"
       ++ "<county>West Yorkshire</county><postcode>W6 9HR</postcode>"
       ++ "<country ref='GB'></country></address>"
       ++ "<phonenumbers><home>+35312345678</home>"
       ++ "<work>+3531987654321</work><fax>+3531987654321</fax>"
       ++ "<mobile>+3531987654321</mobile></phonenumbers></payer>"
       ++ "</request>")%string.
Proof. vm_compute. reflexivity. Qed.

Example ValidationError_message :
  ValidationError_Error
    (http.Response.mk 200
       (http.Request.mk "POST" (url.mkURL "" "" "/test") None "") "")
  = "Validation Hash Error: method: POST, path: /test, status code:200".
Proof. reflexivity. Qed.

(** C4, at the failing input: Authorize on a request without Amount group
    panics after it stamped the request and before it signed anything,
    while Credit, which signs the same row, completes on the same request
    with empty strings in the amount and currency slots. *)
Theorem C4_Authorize_without_Amount_panics :
  snd (fixture.run fixture.goodHash OpAuthorize (fixture.authRequest None))
  = Panicked
  /\ elementsToHash
       (CardStorageRequest.authenticator
          (fst (fixture.run fixture.goodHash OpAuthorize
                  (fixture.authRequest None))))
     = []
  /\ elementsToHash
       (CardStorageRequest.authenticator
          (fst (fixture.run fixture.goodHash OpCredit
                  (fixture.authRequest None))))
     = ["20180614095000"; "realexsandbox"; "AiCibJ5UR7utURy_slxhJw"; ""; "";
        "03e28f0e-492e-80bd-20ec318e9334"]
  /\ snd (fixture.run fixture.goodHash OpCredit (fixture.authRequest None))
     <> Panicked.
Proof.
  split; [vm_compute; reflexivity|].
  split; [vm_compute; reflexivity|].
  split; [vm_compute; reflexivity|].
  vm_compute. discriminate.
Qed.

(** C2 as stated fails: on a request whose header names payer-A and whose
    Payer group names payer-B, CreateCustomer signs payer-B where the row
    of the table puts the payer reference of the request; Authorize, whose
    row is the same, signs payer-A on the same request. *)
Lemma C2_counterexample :
  let stamped :=
    fst (fixture.run fixture.goodHash OpCreateCustomer fixture.twoPayers) in
  CardStorageRequest.authenticator stamped
  <> rowContext (table OpCreateCustomer) fixture.client stamped
  /\ table OpCreateCustomer = table OpAuthorize
  /\ elementsToHash (CardStorageRequest.authenticator stamped)
     <> elementsToHash
          (CardStorageRequest.authenticator
             (fst (fixture.run fixture.goodHash OpAuthorize
                     fixture.twoPayers))).
Proof.
  split; [vm_compute; discriminate|].
  split; [reflexivity|].
  vm_compute. discriminate.
Qed.

Lemma C2_builders_sign_their_row_witness :
  (OpAuthorize = OpAuthorize ->
   CardStorageRequest.Amount
     (fixture.authRequest (Some (Amount.mk "10000" "CAD"))) <> None)
  /\ CardStorageRequest.authenticator
       (fst (fixture.run fixture.goodHash OpAuthorize
               (fixture.authRequest (Some (Amount.mk "10000" "CAD")))))
     = rowContext (builderTable OpAuthorize) fixture.client
         (fst (fixture.run fixture.goodHash OpAuthorize
                 (fixture.authRequest (Some (Amount.mk "10000" "CAD"))))).
Proof.
  assert (Hamount : OpAuthorize = OpAuthorize ->
            CardStorageRequest.Amount
              (fixture.authRequest (Some (Amount.mk "10000" "CAD"))) <> None).
  { intros _. simpl. discriminate. }
  split; [exact Hamount|].
  exact (proj1 (C2_builders_sign_their_row fixture.URL_Parse
                  fixture.http_NewRequest (fixture.xml_Decode fixture.goodHash)
                  marshal.escapeASCII fixture.Now OpAuthorize
                  (CardStorage fixture.client)
                  (fixture.authRequest (Some (Amount.mk "10000" "CAD")))
                  Hamount)).
Defined.

(** ** Witnesses on the fixtures *)

Lemma C3_response_context_witness :
  let request := fixture.authRequest (Some (Amount.mk "10000" "CAD")) in
  let stamped := fst (fixture.run fixture.goodHash OpAuthorize request) in
  (OpAuthorize = OpAuthorize -> CardStorageRequest.Amount request <> None)
  /\ NewRequest fixture.URL_Parse fixture.http_NewRequest
       (encodeRequest marshal.escapeASCII) fixture.client "POST" DefaultPath
       (Some stamped)
     = Returned (Ok (fixture.httpRequestOf stamped))
  /\ Do (fixture.xml_Decode fixture.goodHash) fixture.client
       (fixture.httpRequestOf stamped)
     = Ok (fixture.httpResponseOf stamped,
           fixture.authorised fixture.goodHash)
  /\ sharedSecret
       (responseContext fixture.client (fixture.authorised fixture.goodHash))
     = DefaultHashSecret.
Proof.
  intros request stamped.
  assert (Hamount : OpAuthorize = OpAuthorize ->
            CardStorageRequest.Amount request <> None).
  { intros _. simpl. discriminate. }
  assert (Hnew : NewRequest fixture.URL_Parse fixture.http_NewRequest
            (encodeRequest marshal.escapeASCII)
            (client (CardStorage fixture.client)) "POST"
            (Path (CardStorage fixture.client))
            (Some (fst (invoke fixture.URL_Parse fixture.http_NewRequest
                          (fixture.xml_Decode fixture.goodHash)
                          marshal.escapeASCII fixture.Now OpAuthorize
                          (CardStorage fixture.client) request)))
          = Returned (Ok (fixture.httpRequestOf stamped))).
  { vm_compute. reflexivity. }
  assert (Hdo : Do (fixture.xml_Decode fixture.goodHash)
            (client (CardStorage fixture.client))
            (fixture.httpRequestOf stamped)
          = Ok (fixture.httpResponseOf stamped,
                fixture.authorised fixture.goodHash)).
  { vm_compute. reflexivity. }
  split; [exact Hamount|]. split; [exact Hnew|]. split; [exact Hdo|].
  exact (proj1 (proj2 (C3_response_context fixture.URL_Parse
                         fixture.http_NewRequest
                         (fixture.xml_Decode fixture.goodHash)
                         marshal.escapeASCII fixture.Now OpAuthorize
                         (CardStorage fixture.client) request
                         (fixture.httpRequestOf stamped)
                         (fixture.httpResponseOf stamped)
                         (fixture.authorised fixture.goodHash)
                         Hamount Hnew Hdo))).
Defined.

Lemma C5_transmitRequest_integrity_witness :
  let request := fixture.authRequest (Some (Amount.mk "10000" "CAD")) in
  let stamped := fst (fixture.run fixture.badHash OpAuthorize request) in
  NewRequest fixture.URL_Parse fixture.http_NewRequest
    (encodeRequest marshal.escapeASCII) fixture.client "POST" DefaultPath
    (Some stamped)
  = Returned (Ok (fixture.httpRequestOf stamped))
  /\ Do (fixture.xml_Decode fixture.badHash) fixture.client
       (fixture.httpRequestOf stamped)
     = Ok (fixture.httpResponseOf stamped, fixture.authorised fixture.badHash)
  /\ transmitRequest fixture.URL_Parse fixture.http_NewRequest
       (fixture.xml_Decode fixture.badHash)
       (encodeRequest marshal.escapeASCII) (CardStorage fixture.client)
       stamped
     = Returned (None, Some (fixture.httpResponseOf stamped),
                 Some (ValidationError (fixture.httpResponseOf stamped)))
  /\ ValidationError_Error (fixture.httpResponseOf stamped)
     = "Validation Hash Error: method: POST, path: /epage-remote.cgi, status code:200".
Proof.
  intros request stamped.
  assert (Hnew : NewRequest fixture.URL_Parse fixture.http_NewRequest
            (encodeRequest marshal.escapeASCII)
            (client (CardStorage fixture.client)) "POST"
            (Path (CardStorage fixture.client)) (Some stamped)
          = Returned (Ok (fixture.httpRequestOf stamped))).
  { vm_compute. reflexivity. }
  assert (Hdo : Do (fixture.xml_Decode fixture.badHash)
            (client (CardStorage fixture.client))
            (fixture.httpRequestOf stamped)
          = Ok (fixture.httpResponseOf stamped,
                fixture.authorised fixture.badHash)).
  { vm_compute. reflexivity. }
  assert (Hneq : ServiceResponse.Sha1Hash (fixture.authorised fixture.badHash)
                 <> computeChainedSignature
                      ["20180731090859"; "MerchantId";
                       "N6qsk4kYRZihmPrTXWYS6g"; "00";
                       "[ test system ] AUTHORISED"; "14610544313177922";
                       "12345"] DefaultHashSecret).
  { vm_compute. discriminate. }
  split; [exact Hnew|]. split; [exact Hdo|].
  destruct (proj1 (C5_transmitRequest_integrity fixture.URL_Parse
                     fixture.http_NewRequest
                     (fixture.xml_Decode fixture.badHash)
                     (encodeRequest marshal.escapeASCII)
                     (CardStorage fixture.client) stamped
                     (fixture.httpRequestOf stamped)
                     (fixture.httpResponseOf stamped)
                     (fixture.authorised fixture.badHash) Hnew Hdo) Hneq)
    as [Hreply _].
  split; [exact Hreply|].
  vm_compute. reflexivity.
Defined.

Lemma C7_builders_stamp_common_fields_witness :
  fourDigitYear (fixture.Now tt)
  /\ digitsOfWidth 14 (formatTime (fixture.Now tt) "20060102150405") = true
  /\ formatTime (fixture.Now tt) "20060102150405" = "20180614095000".
Proof.
  assert (Hrange : fourDigitYear (fixture.Now tt)).
  { unfold fourDigitYear. simpl. lia. }
  split; [exact Hrange|]. split; [|reflexivity].
  exact (proj2 (proj2 (proj2 (proj2 (proj2 (proj2
           (C7_builders_stamp_common_fields fixture.URL_Parse
              fixture.http_NewRequest (fixture.xml_Decode fixture.goodHash)
              marshal.escapeASCII fixture.Now OpAuthorize
              (CardStorage fixture.client)
              (fixture.authRequest None)))))))
           (fixture.Now tt) Hrange).
Defined.

Lemma C8_NewClient_validates_after_options_witness :
  Client.BaseURL
    (applyOptions [fixture.baseURL "/api/"; fixture.hashSecret "testing"]
       (defaultClient fixture.transport))
  = Some (url.mkURL "https" "testing.go" "/api/")
  /\ endsWithSlash "/api/"
  /\ exists err : error,
       NewClient fixture.transport
         [fixture.baseURL "/api/"; fixture.hashSecret "testing"]
       = Returned (Err err).
Proof.
  assert (Hu : Client.BaseURL
                 (applyOptions
                    [fixture.baseURL "/api/"; fixture.hashSecret "testing"]
                    (defaultClient fixture.transport))
               = Some (url.mkURL "https" "testing.go" "/api/")).
  { reflexivity. }
  assert (Hs : endsWithSlash "/api/").
  { exists "/api"%string. reflexivity. }
  split; [exact Hu|]. split; [exact Hs|].
  apply (proj2 (proj1 (C8_NewClient_validates_after_options fixture.transport
                         [fixture.baseURL "/api/";
                          fixture.hashSecret "testing"]))).
  exists (url.mkURL "https" "testing.go" "/api/").
  split; [exact Hu|exact Hs].
Defined.

(** An option that repairs the base URL after one that broke it: the
    check sees only the result. *)
Example NewClient_checks_the_last_base_URL :
  NewClient fixture.transport [fixture.baseURL "/api/"; fixture.baseURL ""]
  = Returned (Ok (applyOptions [fixture.baseURL "/api/"; fixture.baseURL ""]
                    (defaultClient fixture.transport)))
  /\ NewClient fixture.transport [fixture.baseURL ""; fixture.baseURL "/api/"]
     = Returned (Err (TrailingSlashError
                        (url.mkURL "https" "testing.go" "/api/"))).
Proof. split; reflexivity. Qed.

(** * Further properties of the code *)

(** ** The authenticator beyond SHA-1 *)



Lemma string_app_assoc (s1 s2 s3 : string) :
  ((s1 ++ s2) ++ s3 = s1 ++ (s2 ++ s3))%string.
Proof.
  induction s1 as [|c s1 IH]; cbn [String.append].
  - reflexivity.
  - rewrite IH. reflexivity.
Qed.

Lemma Join_cons (e : string) (rest : list string) (sep : string) :
  rest <> [] ->
  strings.Join (e :: rest) sep = (e ++ sep ++ strings.Join rest sep)%string.
Proof.
  destruct rest as [|x rest]; [congruence|]. intros _. reflexivity.
Qed.

(** Joining does not tell an element that contains the separator from two
    elements. *)
Lemma Join_split (before : list string) (a b : string)
    (after : list string) (sep : string) :
  strings.Join (before ++ (a ++ sep ++ b)%string :: after) sep
  = strings.Join (before ++ a :: b :: after) sep.
Proof.
  induction before as [|e before IH].
  - cbn [app]. rewrite (Join_cons a (b :: after)) by discriminate.
    destruct after as [|x after].
    + reflexivity.
    + rewrite !Join_cons by discriminate.
      rewrite !string_app_assoc. reflexivity.
  - cbn [app].
    rewrite !Join_cons by (destruct before; discriminate).
    rewrite IH. reflexivity.
Qed.

(** X2: The signature does not bind the boundaries of the elements: an
    element holding a dot signs like the two elements around that dot, and
    moving the text after a dot into the next element keeps the
    signature. *)
Theorem buildSignature_blind_to_boundaries (before : list string)
    (a b c : string) (after : list string) (secret : string) :
  buildSignature
    (mkAuthenticator (before ++ (a ++ "." ++ b)%string :: after) secret)
  = buildSignature (mkAuthenticator (before ++ a :: b :: after) secret)
  /\ buildSignature
       (mkAuthenticator (before ++ (a ++ "." ++ b)%string :: c :: after)
          secret)
     = buildSignature
         (mkAuthenticator (before ++ a :: (b ++ "." ++ c)%string :: after)
            secret).
Proof.
  rewrite !buildSignature_eq.
  unfold computeChainedSignature. cbn [elementsToHash sharedSecret].
  split.
  - rewrite Join_split. reflexivity.
  - rewrite Join_split.
    replace (before ++ a :: (b ++ "." ++ c)%string :: after)
      with ((before ++ [a]) ++ (b ++ "." ++ c)%string :: after)
      by (rewrite <- app_assoc; reflexivity).
    rewrite Join_split. rewrite <- app_assoc. reflexivity.
Qed.

(** X3: [validateResponseHash] accepts exactly the responses whose sha1hash is
    the chained signature of their context; every other response gets a
    [ValidationError] that carries the HTTP response it was given, and no
    other error exists. *)
Theorem validateResponseHash_accepts_iff (response : ServiceResponse.t)
    (httpResponse : http.Response.t) :
  (ServiceResponse.validateResponseHash response httpResponse = None
   <-> ServiceResponse.Sha1Hash response
       = computeChainedSignature
           (elementsToHash (ServiceResponse.authenticator response))
           (sharedSecret (ServiceResponse.authenticator response)))
  /\ (forall err : error,
        ServiceResponse.validateResponseHash response httpResponse = Some err
        -> err = ValidationError httpResponse).
Proof.
  rewrite validateResponseHash_eq.
  destruct (String.eqb _ _) eqn:E.
  - apply String.eqb_eq in E. split.
    + split; [intros _; symmetry; exact E|reflexivity].
    + intros err Herr. discriminate Herr.
  - apply String.eqb_neq in E. split.
    + split; [discriminate|]. intros Heq. exfalso. apply E.
      symmetry. exact Heq.
    + intros err Herr. injection Herr as <-. reflexivity.
Qed.

Lemma validateResponseHash_accepts_iff_witness :
  ServiceResponse.validateResponseHash
    (ServiceResponse.set_authenticator
       (responseContext fixture.client (fixture.authorised fixture.badHash))
       (fixture.authorised fixture.badHash))
    (fixture.httpResponseOf (fixture.authRequest None))
  = Some (ValidationError (fixture.httpResponseOf (fixture.authRequest None)))
  /\ ValidationError (fixture.httpResponseOf (fixture.authRequest None))
     = ValidationError (fixture.httpResponseOf (fixture.authRequest None)).
Proof.
  assert (Hv : ServiceResponse.validateResponseHash
                 (ServiceResponse.set_authenticator
                    (responseContext fixture.client
                       (fixture.authorised fixture.badHash))
                    (fixture.authorised fixture.badHash))
                 (fixture.httpResponseOf (fixture.authRequest None))
               = Some (ValidationError
                         (fixture.httpResponseOf (fixture.authRequest None)))).
  { vm_compute. reflexivity. }
  split; [exact Hv|].
  exact (proj2 (validateResponseHash_accepts_iff _ _) _ Hv).
Defined.

(** ** What the pipeline hands back *)

Section PipelineOutcomes.

Variable URL_Parse : url.URL -> string -> result url.URL.
Variable http_NewRequest :
  string -> url.URL -> option string -> result http.Request.t.
Variable xml_Decode : string -> result ServiceResponse.t.

Local Abbreviation NewRequest' := (NewRequest URL_Parse http_NewRequest).
Local Abbreviation transmitRequest' :=
  (transmitRequest URL_Parse http_NewRequest xml_Decode).

(** [NewRequest] never looks at the HTTP client. *)
Lemma NewRequest_withHTTPClient {A : Type} (encode : A -> result string)
    (transport : http.Request.t -> result http.Response.t) (c : Client.t)
    (method urlStr : string) (body : option A) :
  NewRequest' encode (withHTTPClient transport c) method urlStr body
  = NewRequest' encode c method urlStr body.
Proof. reflexivity. Qed.

(** Every request [NewRequest] returns is marked as XML. *)
Lemma NewRequest_ContentType {A : Type} (encode : A -> result string)
    (c : Client.t) (method urlStr : string) (body : option A)
    (req : http.Request.t) :
  NewRequest' encode c method urlStr body = Returned (Ok req) ->
  http.Request.ContentType req = "application/xml".
Proof.
  unfold NewRequest.
  destruct (Client.BaseURL c) as [base|]; [|discriminate].
  destruct (URL_Parse base urlStr) as [rel|e]; [|discriminate].
  destruct body as [b|].
  - destruct (encode b) as [doc|e]; [|discriminate].
    destruct (http_NewRequest method rel (Some doc)) as [r|e];
      [|discriminate].
    intros Heq. injection Heq as <-. reflexivity.
  - destruct (http_NewRequest method rel None) as [r|e]; [|discriminate].
    intros Heq. injection Heq as <-. reflexivity.
Qed.

(** X4: The four ways [transmitRequest] ends: a panic on a nil base URL; an
    error with neither response; a [ValidationError] together with the HTTP
    response it wraps; or a response with its HTTP response and no error,
    and then the response's sha1hash is the chained signature of its seven
    fields under the ordinary secret. *)
Theorem transmitRequest_outcomes {A : Type} (encode : A -> result string)
    (transmitter : service) (request : A) :
  transmitRequest' encode transmitter request = Panicked
  \/ (exists err : error,
        transmitRequest' encode transmitter request
        = Returned (None, None, Some err))
  \/ (exists httpResponse : http.Response.t,
        transmitRequest' encode transmitter request
        = Returned (None, Some httpResponse,
                    Some (ValidationError httpResponse)))
  \/ (exists (response : ServiceResponse.t)
             (httpResponse : http.Response.t),
        transmitRequest' encode transmitter request
        = Returned (Some response, Some httpResponse, None)
        /\ ServiceResponse.authenticator response
           = responseContext (client transmitter) response
        /\ ServiceResponse.Sha1Hash response
           = computeChainedSignature
               [ServiceResponse.Timestamp response;
                ServiceResponse.MerchantID response;
                ServiceResponse.OrderID response;
                ServiceResponse.Result response;
                ServiceResponse.Message response;
                ServiceResponse.PasRef response;
                ServiceResponse.AuthCode response]
               (Client.HashSecret (client transmitter))).
Proof.
  unfold transmitRequest.
  destruct (NewRequest' encode (client transmitter) "POST" (Path transmitter)
              (Some request)) as [[httpRequest|e]|].
  - destruct (Do xml_Decode (client transmitter) httpRequest)
      as [[httpResponse decoded]|e].
    + rewrite set_context, validateResponseHash_eq.
      cbn [ServiceResponse.set_authenticator ServiceResponse.authenticator
           ServiceResponse.Sha1Hash].
      destruct (String.eqb _ _) eqn:E.
      * right; right; right.
        eexists; eexists. split; [reflexivity|]. split; [reflexivity|].
        apply String.eqb_eq in E. symmetry. exact E.
      * right; right; left. exists httpResponse. reflexivity.
    + right; left. exists e. reflexivity.
  - right; left. exists e. reflexivity.
  - left. reflexivity.
Qed.

(** X5: A request that cannot be built never reaches the network: whatever
    HTTP client stands behind the client, the error of [NewRequest] comes
    back with neither response. *)
Theorem transmitRequest_build_failure_skips_network {A : Type}
    (encode : A -> result string) (transmitter : service) (request : A)
    (err : error) :
  NewRequest' encode (client transmitter) "POST" (Path transmitter)
    (Some request) = Returned (Err err) ->
  forall transport : http.Request.t -> result http.Response.t,
    transmitRequest' encode
      (mkService (withHTTPClient transport (client transmitter))
         (Path transmitter)) request
    = Returned (None, None, Some err).
Proof.
  intros Hnew transport. unfold transmitRequest.
  cbn [client Path]. rewrite NewRequest_withHTTPClient, Hnew. reflexivity.
Qed.

(** A document that cannot be encoded is such a failure. *)
Lemma NewRequest_encode_error {A : Type} (encode : A -> result string)
    (c : Client.t) (method urlStr : string) (body : A) (base rel : url.URL)
    (err : error) :
  Client.BaseURL c = Some base ->
  URL_Parse base urlStr = Ok rel ->
  encode body = Err err ->
  NewRequest' encode c method urlStr (Some body) = Returned (Err err).
Proof.
  intros Hb Hp He. unfold NewRequest. rewrite Hb, Hp, He. reflexivity.
Qed.

(** X6: When the exchange fails the caller gets the error alone: a transport
    error comes back whatever the decoder would do, and a body that does
    not decode takes the HTTP response down with it although the server
    answered. *)
Theorem transmitRequest_exchange_failures {A : Type}
    (encode : A -> result string) (transmitter : service) (request : A)
    (httpRequest : http.Request.t) :
  NewRequest' encode (client transmitter) "POST" (Path transmitter)
    (Some request) = Returned (Ok httpRequest) ->
  (forall err : error,
      Client.HTTPClient (client transmitter) httpRequest = Err err ->
      transmitRequest' encode transmitter request
      = Returned (None, None, Some err))
  /\ (forall (httpResponse : http.Response.t) (err : error),
        Client.HTTPClient (client transmitter) httpRequest = Ok httpResponse
        -> xml_Decode (http.Response.Body httpResponse) = Err err ->
        transmitRequest' encode transmitter request
        = Returned (None, None, Some err)).
Proof.
  intros Hnew. split.
  - intros err Hc. unfold transmitRequest, Do. rewrite Hnew, Hc. reflexivity.
  - intros httpResponse err Hc Hd. unfold transmitRequest, Do.
    rewrite Hnew, Hc, Hd. reflexivity.
Qed.

(** X7: The HTTP client is only ever asked to send requests marked as XML:
    two HTTP clients that treat those alike give the same result. *)
Theorem transmitRequest_sends_only_xml {A : Type}
    (encode : A -> result string) (transmitter : service) (request : A)
    (transport1 transport2 : http.Request.t -> result http.Response.t) :
  (forall req : http.Request.t,
      http.Request.ContentType req = "application/xml" ->
      transport1 req = transport2 req) ->
  transmitRequest' encode
    (mkService (withHTTPClient transport1 (client transmitter))
       (Path transmitter)) request
  = transmitRequest' encode
      (mkService (withHTTPClient transport2 (client transmitter))
         (Path transmitter)) request.
Proof.
  intros Hagree. unfold transmitRequest. cbn [client Path].
  rewrite !NewRequest_withHTTPClient.
  destruct (NewRequest' encode (client transmitter) "POST" (Path transmitter)
              (Some request)) as [[httpRequest|e]|] eqn:Hnew;
    try reflexivity.
  apply NewRequest_ContentType in Hnew.
  unfold Do. cbn [withHTTPClient Client.HTTPClient Client.HashSecret].
  rewrite (Hagree httpRequest Hnew). reflexivity.
Qed.

End PipelineOutcomes.

(** ** What the builders sign, and what they do not *)

Lemma Join_shift (before : list string) (a b c : string)
    (after : list string) (sep : string) :
  strings.Join (before ++ (a ++ sep ++ b)%string :: c :: after) sep
  = strings.Join (before ++ a :: (b ++ sep ++ c)%string :: after) sep.
Proof.
  rewrite Join_split.
  replace (before ++ a :: (b ++ sep ++ c)%string :: after)
    with ((before ++ [a]) ++ (b ++ sep ++ c)%string :: after)
    by (rewrite <- app_assoc; reflexivity).
  rewrite Join_split. rewrite <- app_assoc. reflexivity.
Qed.

Section BuilderFacts.

Variable URL_Parse : url.URL -> string -> result url.URL.
Variable http_NewRequest :
  string -> url.URL -> option string -> result http.Request.t.
Variable xml_Decode : string -> result ServiceResponse.t.
Variable EscapeString : string -> string.
Context {T : Type} `{TimeFormatter T}.
Variable Now : unit -> T.

Local Abbreviation invoke' :=
  (invoke URL_Parse http_NewRequest xml_Decode EscapeString Now).
Local Abbreviation stamp op cardStorage request :=
  (fst (invoke' op cardStorage request)).

(** The context and the signature of a stamped request are determined by
    the operation, the clock, the client and the signed fields. *)
Lemma stamped_signature_ext (op : Operation) (cardStorage : service)
    (r r' : CardStorageRequest.t) :
  (op = OpAuthorize -> CardStorageRequest.Amount r <> None) ->
  (op = OpAuthorize -> CardStorageRequest.Amount r' <> None) ->
  sameSignedFields r r' ->
  CardStorageRequest.authenticator (stamp op cardStorage r)
  = CardStorageRequest.authenticator (stamp op cardStorage r')
  /\ CardStorageRequest.Sha1Hash (stamp op cardStorage r)
     = CardStorageRequest.Sha1Hash (stamp op cardStorage r').
Proof.
  intros H1 H2 (HO & HP & HA & HC & HY & HN & HM & HR & HE).
  unfold CardStorageRequest.getPayerRef, CardStorageRequest.getAmount,
    CardStorageRequest.getCurrency, CardStorageRequest.getCardHolderName,
    CardStorageRequest.getCardNumber, CardStorageRequest.getCardRef,
    CardStorageRequest.getCardExpDate in *.
  destruct (invoke_context URL_Parse http_NewRequest xml_Decode EscapeString
              Now op cardStorage r H1) as [C1 S1].
  destruct (invoke_context URL_Parse http_NewRequest xml_Decode EscapeString
              Now op cardStorage r' H2) as [C2 S2].
  destruct (invoke_stamps URL_Parse http_NewRequest xml_Decode EscapeString
              Now op cardStorage r) as (_ & T1 & M1).
  destruct (invoke_stamps URL_Parse http_NewRequest xml_Decode EscapeString
              Now op cardStorage r') as (_ & T2 & M2).
  destruct (invoke_frame URL_Parse http_NewRequest xml_Decode EscapeString
              Now op cardStorage r)
    as (_ & _ & _ & O1 & P1 & _ & A1 & _ & _ & Y1 & K1).
  destruct (invoke_frame URL_Parse http_NewRequest xml_Decode EscapeString
              Now op cardStorage r')
    as (_ & _ & _ & O2 & P2 & _ & A2 & _ & _ & Y2 & K2).
  cbv zeta in *.
  assert (E : rowContext (builderTable op) (client cardStorage)
                (stamp op cardStorage r)
              = rowContext (builderTable op) (client cardStorage)
                  (stamp op cardStorage r')).
  { unfold rowContext. f_equal.
    destruct op; cbn [builderTable table fst map fieldValue];
      rewrite ?T1, ?T2, ?M1, ?M2, ?O1, ?O2, ?P1, ?P2, ?A1, ?A2, ?Y1, ?Y2,
        ?K1, ?K2, ?HO, ?HP, ?HA, ?HC, ?HY, ?HN, ?HM, ?HR, ?HE;
      reflexivity. }
  split.
  - rewrite C1, C2. exact E.
  - rewrite S1, S2, C1, C2, E. reflexivity.
Qed.

(** X8: The signature covers the signed fields and nothing else: requests that
    agree on the order id, the payer reference and what the getters read
    get the same sha1hash from a builder, whatever their account, channel,
    payment method, auto-settle flag and CVN are; and it does not cover the
    operation, since Authorize and EditCustomer store the same sha1hash in
    the same request under type codes that differ. *)
Theorem signature_covers_signed_fields_only (op : Operation)
    (cardStorage : service) (r r' : CardStorageRequest.t) :
  (op = OpAuthorize -> CardStorageRequest.Amount r <> None) ->
  (op = OpAuthorize -> CardStorageRequest.Amount r' <> None) ->
  sameSignedFields r r' ->
  CardStorageRequest.Sha1Hash (stamp op cardStorage r)
  = CardStorageRequest.Sha1Hash (stamp op cardStorage r')
  /\ (CardStorageRequest.Amount r <> None ->
      CardStorageRequest.Sha1Hash (stamp OpAuthorize cardStorage r)
      = CardStorageRequest.Sha1Hash (stamp OpEditCustomer cardStorage r)
      /\ CardStorageRequest.Type_ (stamp OpAuthorize cardStorage r)
         <> CardStorageRequest.Type_ (stamp OpEditCustomer cardStorage r)).
Proof.
  intros H1 H2 Hsame. split.
  - apply (stamped_signature_ext op cardStorage r r' H1 H2 Hsame).
  - intros Hamount.
    destruct (CardStorageRequest.Amount r) as [a|] eqn:E; [|congruence].
    unfold invoke, Authorize, EditCustomer.
    unfold CardStorageRequest.getAmount, CardStorageRequest.getCurrency.
    request_simpl. rewrite E. rewrite !buildSignature_eq. request_simpl.
    split; [reflexivity|discriminate].
Qed.

(** X9: Null coercion: a builder that completes signs a request whose Amount,
    Payer or Card group is absent exactly as it signs the request with the
    absent groups present and empty. *)
Theorem absent_group_signs_as_empty_group (op : Operation)
    (cardStorage : service) (request : CardStorageRequest.t) :
  (op = OpAuthorize -> CardStorageRequest.Amount request <> None) ->
  CardStorageRequest.authenticator (stamp op cardStorage request)
  = CardStorageRequest.authenticator
      (stamp op cardStorage (withEmptyGroups request))
  /\ CardStorageRequest.Sha1Hash (stamp op cardStorage request)
     = CardStorageRequest.Sha1Hash
         (stamp op cardStorage (withEmptyGroups request)).
Proof.
  intros Hamount.
  apply stamped_signature_ext.
  - exact Hamount.
  - intros _. unfold withEmptyGroups. cbn [CardStorageRequest.Amount].
    destruct (CardStorageRequest.Amount request); discriminate.
  - unfold sameSignedFields, withEmptyGroups,
      CardStorageRequest.getPayerRef, CardStorageRequest.getAmount,
      CardStorageRequest.getCurrency, CardStorageRequest.getCardHolderName,
      CardStorageRequest.getCardNumber, CardStorageRequest.getCardRef,
      CardStorageRequest.getCardExpDate.
    cbn [CardStorageRequest.OrderID CardStorageRequest.PayerRef
         CardStorageRequest.Amount CardStorageRequest.Payer
         CardStorageRequest.Card].
    destruct (CardStorageRequest.Amount request),
      (CardStorageRequest.Payer request),
      (CardStorageRequest.Card request); repeat split; reflexivity.
Qed.

(** X10: The sha1hash a builder stores is forty lowercase hexadecimal
    characters, whatever the request holds. *)
Theorem stamped_Sha1Hash_is_40_lower_hex (op : Operation)
    (cardStorage : service) (request : CardStorageRequest.t) :
  (op = OpAuthorize -> CardStorageRequest.Amount request <> None) ->
  String.length (CardStorageRequest.Sha1Hash (stamp op cardStorage request))
  = 40%nat
  /\ hex.all_chars hex.is_lower_hex
       (CardStorageRequest.Sha1Hash (stamp op cardStorage request)) = true.
Proof.
  intros Hamount.
  destruct (invoke_context URL_Parse http_NewRequest xml_Decode EscapeString
              Now op cardStorage request Hamount) as [_ Hsig].
  cbv zeta in Hsig. rewrite Hsig. unfold computeChainedSignature.
  split; [apply hexSHA1_length|apply hexSHA1_lower].
Qed.

(** X11: Validate does not tell where the order id ends and the payer reference
    begins: text after a dot of the order id can move to the front of the
    payer reference without changing the sha1hash. *)
Theorem Validate_blind_to_field_boundary (cardStorage : service)
    (r r' : CardStorageRequest.t) (a b c : string) :
  CardStorageRequest.OrderID r = (a ++ "." ++ b)%string ->
  CardStorageRequest.PayerRef r = c ->
  CardStorageRequest.OrderID r' = a ->
  CardStorageRequest.PayerRef r' = (b ++ "." ++ c)%string ->
  CardStorageRequest.Sha1Hash (stamp OpValidate cardStorage r)
  = CardStorageRequest.Sha1Hash (stamp OpValidate cardStorage r').
Proof.
  intros HO HP HO' HP'.
  unfold invoke, Validate. request_simpl.
  rewrite !buildSignature_eq. request_simpl.
  rewrite HO, HP, HO', HP'.
  unfold computeChainedSignature. do 2 f_equal. f_equal.
  apply (Join_shift
           [formatTime (Now tt) "20060102150405";
            Client.MerchantID (client cardStorage)] a b c [] ".").
Qed.

(** A builder reads nothing it or another builder wrote before: requests
    the caller filled alike are stamped alike and answered alike. *)
Lemma invoke_ext (op : Operation) (cardStorage : service)
    (r r' : CardStorageRequest.t) :
  (op = OpAuthorize -> CardStorageRequest.Amount r <> None) ->
  sameCallerFields r r' ->
  invoke' op cardStorage r = invoke' op cardStorage r'.
Proof.
  intros Hamount Hsame.
  destruct r as [x1 t1 ts1 m1 ac1 ch1 o1 p1 pm1 s1 am1 au1 pd1 py1 cd1 a1].
  destruct r' as [x2 t2 ts2 m2 ac2 ch2 o2 p2 pm2 s2 am2 au2 pd2 py2 cd2 a2].
  unfold sameCallerFields in Hsame. request_simpl.
  destruct Hsame as (-> & -> & -> & -> & -> & -> & -> & -> & -> & -> & ->).
  destruct op;
    unfold invoke, Authorize, Validate, Credit, CreateCustomer, EditCustomer,
      StoreCard, EditCard, DeleteCard;
    unfold CardStorageRequest.getPayerRef, CardStorageRequest.getAmount,
      CardStorageRequest.getCurrency, CardStorageRequest.getCardHolderName,
      CardStorageRequest.getCardNumber, CardStorageRequest.getCardRef,
      CardStorageRequest.getCardExpDate;
    request_simpl;
    try (destruct am2; [|exfalso; apply (Hamount eq_refl); reflexivity]);
    rewrite !buildSignature_eq; request_simpl; reflexivity.
Qed.

(** X12: A request can be used again: an earlier operation on it, whichever it
    was and however it ended, leaves no trace in what a later operation
    stamps, sends and returns. *)
Theorem builders_forget_earlier_operations (earlier later : Operation)
    (cardStorage : service) (request : CardStorageRequest.t) :
  (later = OpAuthorize -> CardStorageRequest.Amount request <> None) ->
  invoke' later cardStorage (stamp earlier cardStorage request)
  = invoke' later cardStorage request.
Proof.
  intros Hamount.
  destruct (invoke_frame URL_Parse http_NewRequest xml_Decode EscapeString
              Now earlier cardStorage request)
    as (F1 & F2 & F3 & F4 & F5 & F6 & F7 & F8 & F9 & F10 & F11).
  cbv zeta in *.
  apply invoke_ext.
  - intros Hop. rewrite F7. exact (Hamount Hop).
  - unfold sameCallerFields. repeat split; assumption.
Qed.

End BuilderFacts.

(** ** Constructed clients *)

Lemma applyOptions_keepsBaseURL (options : list (Client.t -> Client.t))
    (c : Client.t) :
  Forall keepsBaseURL options ->
  Client.BaseURL (applyOptions options c) = Client.BaseURL c.
Proof.
  intros Hall. revert c.
  induction Hall as [|option rest Hkeep _ IH]; intros c; cbn [applyOptions].
  - reflexivity.
  - rewrite IH. apply Hkeep.
Qed.

(** X13: Options that leave the base URL alone cannot make construction fail:
    the client comes back with every option applied and the default base
    URL. *)
Theorem NewClient_succeeds_when_base_URL_is_kept
    (transport : http.Request.t -> result http.Response.t)
    (options : list (Client.t -> Client.t)) :
  Forall keepsBaseURL options ->
  NewClient transport options
  = Returned (Ok (applyOptions options (defaultClient transport)))
  /\ Client.BaseURL (applyOptions options (defaultClient transport))
     = Some parsedDefaultBaseURL.
Proof.
  intros Hall.
  assert (Hb : Client.BaseURL (applyOptions options (defaultClient transport))
               = Some parsedDefaultBaseURL).
  { rewrite (applyOptions_keepsBaseURL options _ Hall). reflexivity. }
  split; [|exact Hb].
  rewrite NewClient_eq, Hb. reflexivity.
Qed.


Section ConstructedClient.

Variable URL_Parse : url.URL -> string -> result url.URL.
Variable http_NewRequest :
  string -> url.URL -> option string -> result http.Request.t.
Variable xml_Decode : string -> result ServiceResponse.t.
Variable EscapeString : string -> string.
Context {T : Type} `{TimeFormatter T}.
Variable Now : unit -> T.

Local Abbreviation invoke' :=
  (invoke URL_Parse http_NewRequest xml_Decode EscapeString Now).



End ConstructedClient.

(** ** The further properties on the fixtures *)

Lemma transmitRequest_build_failure_skips_network_witness :
  NewRequest fixture.URL_Parse fixture.http_NewRequest
    (fun _ : unit => Err (LibraryError "xml: unsupported type"))
    fixture.client "POST" DefaultPath (Some tt)
  = Returned (Err (LibraryError "xml: unsupported type"))
  /\ transmitRequest fixture.URL_Parse fixture.http_NewRequest
       (fixture.xml_Decode fixture.goodHash)
       (fun _ : unit => Err (LibraryError "xml: unsupported type"))
       (mkService
          (withHTTPClient (fun _ => Err (LibraryError "no network"))
             fixture.client) DefaultPath) tt
     = Returned (None, None, Some (LibraryError "xml: unsupported type")).
Proof.
  assert (Hnew : NewRequest fixture.URL_Parse fixture.http_NewRequest
                   (fun _ : unit => Err (LibraryError "xml: unsupported type"))
                   (client (CardStorage fixture.client)) "POST"
                   (Path (CardStorage fixture.client)) (Some tt)
                 = Returned (Err (LibraryError "xml: unsupported type"))).
  { reflexivity. }
  split; [exact Hnew|].
  exact (transmitRequest_build_failure_skips_network fixture.URL_Parse
           fixture.http_NewRequest (fixture.xml_Decode fixture.goodHash)
           (fun _ : unit => Err (LibraryError "xml: unsupported type"))
           (CardStorage fixture.client) tt _ Hnew
           (fun _ => Err (LibraryError "no network"))).
Defined.

Lemma transmitRequest_exchange_failures_witness :
  let stamped :=
    fst (fixture.run fixture.goodHash OpValidate (fixture.authRequest None)) in
  NewRequest fixture.URL_Parse fixture.http_NewRequest
    (encodeRequest marshal.escapeASCII) fixture.client "POST" DefaultPath
    (Some stamped)
  = Returned (Ok (fixture.httpRequestOf stamped))
  /\ fixture.transport (fixture.httpRequestOf stamped)
     = Ok (fixture.httpResponseOf stamped)
  /\ transmitRequest fixture.URL_Parse fixture.http_NewRequest
       (fun _ => Err (LibraryError "EOF"))
       (encodeRequest marshal.escapeASCII) (CardStorage fixture.client)
       stamped
     = Returned (None, None, Some (LibraryError "EOF")).
Proof.
  intros stamped.
  assert (Hnew : NewRequest fixture.URL_Parse fixture.http_NewRequest
                   (encodeRequest marshal.escapeASCII)
                   (client (CardStorage fixture.client)) "POST"
                   (Path (CardStorage fixture.client)) (Some stamped)
                 = Returned (Ok (fixture.httpRequestOf stamped))).
  { vm_compute. reflexivity. }
  assert (Hc : Client.HTTPClient (client (CardStorage fixture.client))
                 (fixture.httpRequestOf stamped)
               = Ok (fixture.httpResponseOf stamped)).
  { reflexivity. }
  split; [exact Hnew|]. split; [exact Hc|].
  exact (proj2 (transmitRequest_exchange_failures fixture.URL_Parse
                  fixture.http_NewRequest (fun _ => Err (LibraryError "EOF"))
                  (encodeRequest marshal.escapeASCII)
                  (CardStorage fixture.client) stamped
                  (fixture.httpRequestOf stamped) Hnew)
           (fixture.httpResponseOf stamped) (LibraryError "EOF") Hc eq_refl).
Defined.

Lemma transmitRequest_sends_only_xml_witness :
  let refuseOthers (req : http.Request.t) : result http.Response.t :=
    if String.eqb (http.Request.ContentType req) "application/xml"
    then fixture.transport req
    else Err (LibraryError "unsupported media type") in
  (forall req : http.Request.t,
      http.Request.ContentType req = "application/xml" ->
      fixture.transport req = refuseOthers req)
  /\ transmitRequest fixture.URL_Parse fixture.http_NewRequest
       (fixture.xml_Decode fixture.goodHash)
       (encodeRequest marshal.escapeASCII)
       (mkService (withHTTPClient fixture.transport fixture.client)
          DefaultPath) (fixture.authRequest None)
     = transmitRequest fixture.URL_Parse fixture.http_NewRequest
         (fixture.xml_Decode fixture.goodHash)
         (encodeRequest marshal.escapeASCII)
         (mkService (withHTTPClient refuseOthers fixture.client) DefaultPath)
         (fixture.authRequest None).
Proof.
  intros refuseOthers.
  assert (Hagree : forall req : http.Request.t,
             http.Request.ContentType req = "application/xml" ->
             fixture.transport req = refuseOthers req).
  { intros req Hct. unfold refuseOthers. rewrite Hct. reflexivity. }
  split; [exact Hagree|].
  exact (transmitRequest_sends_only_xml fixture.URL_Parse
           fixture.http_NewRequest (fixture.xml_Decode fixture.goodHash)
           (encodeRequest marshal.escapeASCII) (CardStorage fixture.client)
           (fixture.authRequest None) fixture.transport refuseOthers Hagree).
Defined.

Lemma signature_covers_signed_fields_only_witness :
  let r := fixture.authRequest (Some (Amount.mk "10000" "CAD")) in
  let r' :=
    CardStorageRequest.mk (xml.mkName "" "") "" "" "" "moto" "MOTO"
      "AiCibJ5UR7utURy_slxhJw" "03e28f0e-492e-80bd-20ec318e9334" "" ""
      (Some (Amount.mk "10000" "CAD")) None None None None
      (mkAuthenticator [] "") in
  (OpAuthorize = OpAuthorize -> CardStorageRequest.Amount r <> None)
  /\ (OpAuthorize = OpAuthorize -> CardStorageRequest.Amount r' <> None)
  /\ sameSignedFields r r'
  /\ CardStorageRequest.Sha1Hash
       (fst (fixture.run fixture.goodHash OpAuthorize r))
     = CardStorageRequest.Sha1Hash
         (fst (fixture.run fixture.goodHash OpAuthorize r')).
Proof.
  intros r r'.
  assert (H1 : OpAuthorize = OpAuthorize ->
               CardStorageRequest.Amount r <> None).
  { intros _. simpl. discriminate. }
  assert (H2 : OpAuthorize = OpAuthorize ->
               CardStorageRequest.Amount r' <> None).
  { intros _. simpl. discriminate. }
  assert (Hs : sameSignedFields r r').
  { unfold sameSignedFields. simpl. repeat split. }
  split; [exact H1|]. split; [exact H2|]. split; [exact Hs|].
  exact (proj1 (signature_covers_signed_fields_only fixture.URL_Parse
                  fixture.http_NewRequest
                  (fixture.xml_Decode fixture.goodHash) marshal.escapeASCII
                  fixture.Now OpAuthorize (CardStorage fixture.client) r r'
                  H1 H2 Hs)).
Defined.

Lemma absent_group_signs_as_empty_group_witness :
  (OpCredit = OpAuthorize ->
   CardStorageRequest.Amount (fixture.authRequest None) <> None)
  /\ CardStorageRequest.Sha1Hash
       (fst (fixture.run fixture.goodHash OpCredit
               (fixture.authRequest None)))
     = CardStorageRequest.Sha1Hash
         (fst (fixture.run fixture.goodHash OpCredit
                 (withEmptyGroups (fixture.authRequest None)))).
Proof.
  assert (H1 : OpCredit = OpAuthorize ->
               CardStorageRequest.Amount (fixture.authRequest None) <> None).
  { intros E. discriminate E. }
  split; [exact H1|].
  exact (proj2 (absent_group_signs_as_empty_group fixture.URL_Parse
                  fixture.http_NewRequest
                  (fixture.xml_Decode fixture.goodHash) marshal.escapeASCII
                  fixture.Now OpCredit (CardStorage fixture.client)
                  (fixture.authRequest None) H1)).
Defined.

Lemma stamped_Sha1Hash_is_40_lower_hex_witness :
  (OpAuthorize = OpAuthorize ->
   CardStorageRequest.Amount
     (fixture.authRequest (Some (Amount.mk "10000" "CAD"))) <> None)
  /\ String.length
       (CardStorageRequest.Sha1Hash
          (fst (fixture.run fixture.goodHash OpAuthorize
                  (fixture.authRequest (Some (Amount.mk "10000" "CAD"))))))
     = 40%nat.
Proof.
  assert (H1 : OpAuthorize = OpAuthorize ->
               CardStorageRequest.Amount
                 (fixture.authRequest (Some (Amount.mk "10000" "CAD")))
               <> None).
  { intros _. simpl. discriminate. }
  split; [exact H1|].
  exact (proj1 (stamped_Sha1Hash_is_40_lower_hex fixture.URL_Parse
                  fixture.http_NewRequest
                  (fixture.xml_Decode fixture.goodHash) marshal.escapeASCII
                  fixture.Now OpAuthorize (CardStorage fixture.client)
                  (fixture.authRequest (Some (Amount.mk "10000" "CAD")))
                  H1)).
Defined.

Lemma Validate_blind_to_field_boundary_witness :
  let r :=
    CardStorageRequest.mk (xml.mkName "" "") "" "" "" "internet" "" "order.7"
      "payer" "" "" None None None None None (mkAuthenticator [] "") in
  let r' :=
    CardStorageRequest.mk (xml.mkName "" "") "" "" "" "internet" "" "order"
      "7.payer" "" "" None None None None None (mkAuthenticator [] "") in
  CardStorageRequest.OrderID r = ("order" ++ "." ++ "7")%string
  /\ CardStorageRequest.PayerRef r' = ("7" ++ "." ++ "payer")%string
  /\ CardStorageRequest.Sha1Hash
       (fst (fixture.run fixture.goodHash OpValidate r))
     = CardStorageRequest.Sha1Hash
         (fst (fixture.run fixture.goodHash OpValidate r')).
Proof.
  intros r r'.
  split; [reflexivity|]. split; [reflexivity|].
  exact (Validate_blind_to_field_boundary fixture.URL_Parse
           fixture.http_NewRequest (fixture.xml_Decode fixture.goodHash)
           marshal.escapeASCII fixture.Now (CardStorage fixture.client) r r'
           "order" "7" "payer" eq_refl eq_refl eq_refl eq_refl).
Defined.

Lemma builders_forget_earlier_operations_witness :
  let request := fixture.authRequest (Some (Amount.mk "10000" "CAD")) in
  (OpAuthorize = OpAuthorize -> CardStorageRequest.Amount request <> None)
  /\ fixture.run fixture.goodHash OpAuthorize
       (fst (fixture.run fixture.goodHash OpCredit request))
     = fixture.run fixture.goodHash OpAuthorize request.
Proof.
  intros request.
  assert (H1 : OpAuthorize = OpAuthorize ->
               CardStorageRequest.Amount request <> None).
  { intros _. simpl. discriminate. }
  split; [exact H1|].
  exact (builders_forget_earlier_operations fixture.URL_Parse
           fixture.http_NewRequest (fixture.xml_Decode fixture.goodHash)
           marshal.escapeASCII fixture.Now OpCredit OpAuthorize
           (CardStorage fixture.client) request H1).
Defined.

Lemma NewClient_succeeds_when_base_URL_is_kept_witness :
  Forall keepsBaseURL [fixture.hashSecret "testing"]
  /\ NewClient fixture.transport [fixture.hashSecret "testing"]
     = Returned (Ok (fixture.hashSecret "testing"
                       (defaultClient fixture.transport))).
Proof.
  assert (Hall : Forall keepsBaseURL [fixture.hashSecret "testing"]).
  { constructor; [|constructor]. intros c. reflexivity. }
  split; [exact Hall|].
  exact (proj1 (NewClient_succeeds_when_base_URL_is_kept fixture.transport
                  [fixture.hashSecret "testing"] Hall)).
Defined.

